(** * gitsec-scanner: the static pattern scanner of [backend/scanner.py]

    A shallow embedding of [SecurityVisitor] and [scan_code], and the
    properties of the scanner's specification proved (or refuted) on it;
    then the callers of [scan_code] in [backend/main.py], [analyze_file]
    and [analyze_repo], with the start of [calculate_trust_score].

    Conventions of the embedding.
    - A Python [str] is a Rocq [string]; a character is a code point below
      256, and the [str] methods below agree with CPython on that range.
    - The syntax tree is the one [ast.parse] builds; the node classes the
      detectors look at have a constructor each, every other class is
      [Other] with its child nodes in [_fields] order.
    - [ast.parse] itself is outside the repository: [scan_code] takes it as
      a function from the text to its outcome (a tree, a [SyntaxError], or
      another [Exception]).
    - [self.issues.append] is explicit state passing on the visitor record.
    - [visit] and [scan_code] describe the traversal that runs to its end;
      the interpreter's recursion limit, which can cut it short, is modelled
      apart by [frames] and [scan_code_in]. *)

From Stdlib Require Import String Ascii List ZArith NArith Bool Lia.
Import ListNotations.

Open Scope string_scope.
Open Scope Z_scope.
Open Scope list_scope.

Set Warnings "-register-all".

(** ** Python strings *)

Module PyStr.

Definition ord (c : ascii) : N := N_of_ascii c.

(** [c.lower()] for one character: A-Z, and the upper-case letters of the
    Latin-1 block (0xC0-0xDE without the multiplication sign 0xD7). *)
Definition chr_lower (c : ascii) : ascii :=
  let n := ord c in
  if ((65 <=? n) && (n <=? 90))%N
     || ((192 <=? n) && (n <=? 222) && negb (n =? 215))%N
  then ascii_of_N (n + 32)
  else c.

(** [s.lower()] *)
Fixpoint lower (s : string) : string :=
  match s with
  | EmptyString => EmptyString
  | String c r => String (chr_lower c) (lower r)
  end.

(** [needle in hay] on strings: [needle] occurs as a contiguous run. *)
Fixpoint contains (needle hay : string) : bool :=
  String.prefix needle hay
  || match hay with
     | EmptyString => false
     | String _ r => contains needle r
     end.

(** [c.isspace()]: TAB, LF, VT, FF, CR, FS, GS, RS, US, SPACE, NEL, NBSP. *)
Definition isspace (c : ascii) : bool :=
  let n := ord c in
  (((9 <=? n) && (n <=? 13)) || ((28 <=? n) && (n <=? 32))
   || (n =? 133) || (n =? 160))%N.

Fixpoint lstrip (s : string) : string :=
  match s with
  | EmptyString => EmptyString
  | String c r => if isspace c then lstrip r else s
  end.

Fixpoint rstrip (s : string) : string :=
  match s with
  | EmptyString => EmptyString
  | String c r =>
      match rstrip r with
      | EmptyString => if isspace c then EmptyString else String c EmptyString
      | r' => String c r'
      end
  end.

(** [s.strip()] *)
Definition strip (s : string) : string := rstrip (lstrip s).

(** The line boundaries of [str.splitlines]: LF, VT, FF, CR, FS, GS, RS,
    NEL (and CR LF as one boundary). *)
Definition is_linebreak (c : ascii) : bool :=
  let n := ord c in
  (((10 <=? n) && (n <=? 13)) || ((28 <=? n) && (n <=? 30)) || (n =? 133))%N.

Definition is_cr (c : ascii) : bool := (ord c =? 13)%N.
Definition is_lf (c : ascii) : bool := (ord c =? 10)%N.

(** [cur] is the line being read; a last line without a terminator is
    kept, an empty remainder is not. *)
Fixpoint splitlines_from (cur s : string) : list string :=
  match s with
  | EmptyString =>
      match cur with
      | EmptyString => []
      | _ => [cur]
      end
  | String c r =>
      if is_linebreak c then
        cur :: match r with
               | String c' r' =>
                   if is_cr c && is_lf c' then splitlines_from EmptyString r'
                   else splitlines_from EmptyString r
               | EmptyString => splitlines_from EmptyString r
               end
      else splitlines_from (cur ++ String c EmptyString)%string r
  end.

(** [s.splitlines()] *)
Definition splitlines (s : string) : list string :=
  splitlines_from EmptyString s.

(** The characters a string literal of this file cannot hold directly. *)
Definition dquote : string := String (ascii_of_N 34) EmptyString.
Definition LF : string := String (ascii_of_N 10) EmptyString.
Definition CR : string := String (ascii_of_N 13) EmptyString.

End PyStr.

(** ** Python lists *)

Module PyList.

(** [l[i]]: a negative index counts from the end; [None] is [IndexError]. *)
Definition getitem {A : Type} (l : list A) (i : Z) : option A :=
  let n := Z.of_nat (length l) in
  let j := if i <? 0 then i + n else i in
  if (j <? 0) || (n <=? j) then None else nth_error l (Z.to_nat j).

End PyList.

(** ** The syntax tree of [ast.parse] *)

(** The value of an [ast.Constant]. *)
Inductive constant : Type :=
| CStr (s : string)
| CBytes (b : string)
| CInt (n : Z)
| CFloat (repr : string)
| CComplex (repr : string)
| CBool (b : bool)
| CNone
| CEllipsis.

(** [ast.expr_context]: nodes without fields, visited to no effect. *)
Inductive expr_context : Type := CtxLoad | CtxStore | CtxDel.

(** The fields follow each class's [_fields]; [lineno] is the attribute
    the parser sets on statements, expressions and handlers. *)
Inductive node : Type :=
| Module_ (body : list node)
| Assign (lineno : Z) (targets : list node) (value : node)
| AnnAssign (lineno : Z) (target annotation : node) (value : option node)
            (simple : Z)
| Expr (lineno : Z) (value : node)
| Pass (lineno : Z)
| ExceptHandler (lineno : Z) (type : option node) (name : option string)
                (body : list node)
| Call (lineno : Z) (func : node) (args keywords : list node)
| Attribute (lineno : Z) (value : node) (attr : string) (ctx : expr_context)
| Name (lineno : Z) (id : string) (ctx : expr_context)
| Constant (lineno : Z) (value : constant)
| Other (class_name : string) (children : list node).

Definition option_nodes (o : option node) : list node :=
  match o with
  | Some n => [n]
  | None => []
  end.

(** The child nodes [NodeVisitor.generic_visit] walks, in the order of
    [ast.iter_fields]. *)
Definition iter_child_nodes (n : node) : list node :=
  match n with
  | Module_ body => body
  | Assign _ targets value => targets ++ [value]
  | AnnAssign _ target annotation value _ =>
      target :: annotation :: option_nodes value
  | Expr _ value => [value]
  | Pass _ => []
  | ExceptHandler _ type _ body => option_nodes type ++ body
  | Call _ func args keywords => func :: args ++ keywords
  | Attribute _ value _ _ => [value]
  | Name _ _ _ => []
  | Constant _ _ => []
  | Other _ children => children
  end.

(** [node.lineno], for the classes that carry one in this embedding. *)
Definition node_lineno (n : node) : option Z :=
  match n with
  | Module_ _ | Other _ _ => None
  | Assign l _ _ | AnnAssign l _ _ _ _ | Expr l _ | Pass l
  | ExceptHandler l _ _ _ | Call l _ _ _ | Attribute l _ _ _
  | Name l _ _ | Constant l _ => Some l
  end.

(** Document order: a node, then its children's subtrees in field order. *)
Fixpoint preorder (n : node) : list node :=
  n ::
  match n with
  | Module_ body => flat_map preorder body
  | Assign _ targets value => flat_map preorder targets ++ preorder value
  | AnnAssign _ target annotation value _ =>
      preorder target ++ preorder annotation
      ++ match value with
         | Some v => preorder v
         | None => []
         end
  | Expr _ value => preorder value
  | Pass _ => []
  | ExceptHandler _ type _ body =>
      match type with
      | Some t => preorder t
      | None => []
      end ++ flat_map preorder body
  | Call _ func args keywords =>
      preorder func ++ flat_map preorder args ++ flat_map preorder keywords
  | Attribute _ value _ _ => preorder value
  | Name _ _ _ => []
  | Constant _ _ => []
  | Other _ children => flat_map preorder children
  end.

Fixpoint node_size (n : node) : nat :=
  S match n with
    | Module_ body => list_sum (map node_size body)
    | Assign _ targets value => list_sum (map node_size targets) + node_size value
    | AnnAssign _ target annotation value _ =>
        node_size target + node_size annotation
        + match value with
          | Some v => node_size v
          | None => 0
          end
    | Expr _ value => node_size value
    | Pass _ => 0
    | ExceptHandler _ type _ body =>
        match type with
        | Some t => node_size t
        | None => 0
        end + list_sum (map node_size body)
    | Call _ func args keywords =>
        node_size func + list_sum (map node_size args)
        + list_sum (map node_size keywords)
    | Attribute _ value _ _ => node_size value
    | Name _ _ _ => 0
    | Constant _ _ => 0
    | Other _ children => list_sum (map node_size children)
    end%nat.

(** ** Findings *)

(** The dict [add_issue] and [scan_code] build. *)
Record Finding : Type := mkFinding {
  filename : string;
  line : Z;
  issue : string;
  severity : string;
  code : string
}.

(** ** class SecurityVisitor(ast.NodeVisitor) *)

Module SecurityVisitor.

Record t : Type := mk {
  issues : list Finding;
  filename : string;
  code_lines : list string
}.

Definition __init__ (filename : string) (code_lines : list string) : t :=
  {| issues := []; filename := filename; code_lines := code_lines |}.

(** [add_issue(self, node, issue_text, severity)], with [line_num] the
    [node.lineno] the method reads first. *)
Definition add_issue (self : t) (line_num : Z) (issue_text severity : string)
  : t :=
  let code_snippet :=
    match PyList.getitem (code_lines self) (line_num - 1) with
    | Some l => PyStr.strip l
    | None => "(Code not available)"
    end in
  {| issues := issues self
               ++ [mkFinding (filename self) line_num issue_text severity
                             code_snippet];
     filename := filename self;
     code_lines := code_lines self |}.

(** The three [visit_*] methods take the fields of their node, and
    [generic_visit] is [self.generic_visit(node)], the walk of the
    children that ends each of them. *)
Definition visit_Assign (generic_visit : t -> t) (self : t)
    (lineno : Z) (targets : list node) (value : node) : t :=
  let self :=
    fold_left
      (fun self target =>
         match target with
         | Name _ id _ =>
             let var_name := PyStr.lower id in
             if existsb (fun secret => PyStr.contains secret var_name)
                        ["key"; "password"; "secret"; "token"]
             then
               match value with
               | Constant _ (CStr _) =>
                   add_issue self lineno
                     ("Possible Hardcoded Secret: '" ++ id ++ "'")%string
                     "High"
               | _ => self
               end
             else self
         | _ => self
         end)
      targets self in
  generic_visit self.

Definition visit_Call (generic_visit : t -> t) (self : t)
    (lineno : Z) (func : node) : t :=
  let self :=
    match func with
    | Name _ func_name _ =>
        if existsb (String.eqb func_name) ["eval"; "exec"] then
          add_issue self lineno
            ("Use of Dangerous Function (" ++ func_name ++ ")")%string "High"
        else if String.eqb func_name "input" then
          add_issue self lineno "Use of input() (Validate this data!)"
            "Medium"
        else self
    | Attribute _ (Name _ module _) method _ =>
        if String.eqb module "os"
           && existsb (String.eqb method) ["system"; "popen"] then
          add_issue self lineno
            ("Potential OS Command Injection: " ++ module ++ "." ++ method)%string
            "High"
        else if String.eqb module "subprocess"
                && existsb (String.eqb method) ["run"; "call"; "Popen"] then
          add_issue self lineno
            ("Potential Subprocess Injection: " ++ module ++ "." ++ method)%string
            "High"
        else self
    | _ => self
    end in
  generic_visit self.

Definition visit_ExceptHandler (generic_visit : t -> t) (self : t)
    (lineno : Z) (body : list node) : t :=
  let self :=
    match body with
    | [statement] =>
        match statement with
        | Pass _ | Expr _ (Constant _ CEllipsis) =>
            add_issue self lineno "Broad Exception Handler (empty except)"
              "Low"
        | _ => self
        end
    | _ => self
    end in
  generic_visit self.

(** [NodeVisitor.visit]: the method named after the node's class when the
    visitor has one, [generic_visit] otherwise. *)
Fixpoint visit (self : t) (n : node) {struct n} : t :=
  match n with
  | Assign lineno targets value =>
      visit_Assign
        (fun self => visit (fold_left (fun s c => visit s c) targets self) value)
        self lineno targets value
  | Call lineno func args keywords =>
      visit_Call
        (fun self =>
           fold_left (fun s c => visit s c) keywords
             (fold_left (fun s c => visit s c) args (visit self func)))
        self lineno func
  | ExceptHandler lineno type _ body =>
      visit_ExceptHandler
        (fun self =>
           fold_left (fun s c => visit s c) body
             match type with
             | Some t => visit self t
             | None => self
             end)
        self lineno body
  | Module_ body => fold_left (fun s c => visit s c) body self
  | AnnAssign _ target annotation value _ =>
      let self := visit (visit self target) annotation in
      match value with
      | Some v => visit self v
      | None => self
      end
  | Expr _ value => visit self value
  | Attribute _ value _ _ => visit self value
  | Pass _ => self
  | Name _ _ _ => self
  | Constant _ _ => self
  | Other _ children => fold_left (fun s c => visit s c) children self
  end.

(** [NodeVisitor.generic_visit]: visit every child, in field order. *)
Definition generic_visit (self : t) (n : node) : t :=
  fold_left visit (iter_child_nodes n) self.

End SecurityVisitor.

(** ** scan_code *)

(** What [ast.parse(code)] does: returns a tree, raises [SyntaxError] (with
    its [lineno], possibly [None], and [msg]), or raises another
    [Exception] (with its [str]). *)
Inductive parse_outcome : Type :=
| Parsed (tree : node)
| RaisedSyntaxError (lineno : option Z) (msg : string)
| RaisedException (text : string).

(** [x or 0] on an optional line number: [None] and [0] are falsy. *)
Definition or_zero (x : option Z) : Z :=
  match x with
  | Some n => if n =? 0 then 0 else n
  | None => 0
  end.

Section Scan.

Variable ast_parse : string -> parse_outcome.

Definition scan_code (code filename : string) : list Finding :=
  match ast_parse code with
  | RaisedSyntaxError lineno msg =>
      [mkFinding filename (or_zero lineno) ("Syntax Error: " ++ msg)%string
                 "Error" "N/A"]
  | RaisedException e =>
      [mkFinding filename 0 ("Failed to parse: " ++ e)%string "Error" "N/A"]
  | Parsed tree =>
      let code_lines := PyStr.splitlines code in
      let visitor := SecurityVisitor.__init__ filename code_lines in
      let visitor := SecurityVisitor.visit visitor tree in
      SecurityVisitor.issues visitor
  end.

End Scan.

(** ** What the detectors add, stated on their own *)

(** The snippet [add_issue] stores for a line number. *)
Definition code_snippet (code_lines : list string) (line_num : Z) : string :=
  match PyList.getitem code_lines (line_num - 1) with
  | Some l => PyStr.strip l
  | None => "(Code not available)"
  end.

(** The Finding [add_issue] appends. *)
Definition finding_at (filename : string) (code_lines : list string)
    (line_num : Z) (issue_text severity : string) : Finding :=
  mkFinding filename line_num issue_text severity
            (code_snippet code_lines line_num).

(** What a [visit_*] method does before it walks the children: the method
    run with that walk left out. *)
Definition own_issues (self : SecurityVisitor.t) (n : node)
  : SecurityVisitor.t :=
  match n with
  | Assign lineno targets value =>
      SecurityVisitor.visit_Assign (fun s => s) self lineno targets value
  | Call lineno func _ _ =>
      SecurityVisitor.visit_Call (fun s => s) self lineno func
  | ExceptHandler lineno _ _ body =>
      SecurityVisitor.visit_ExceptHandler (fun s => s) self lineno body
  | _ => self
  end.

(** The Findings a node triggers by itself, on a fresh visitor. *)
Definition emitted (filename : string) (code_lines : list string) (n : node)
  : list Finding :=
  SecurityVisitor.issues
    (own_issues (SecurityVisitor.__init__ filename code_lines) n).

(** The spec's words for the name test of the secret detector: some part of
    the identifier is one of the four words up to letter case. *)
Definition secret_words : list string := ["key"; "password"; "secret"; "token"].

Definition secret_like (id : string) : Prop :=
  exists w before part after,
    In w secret_words
    /\ id = (before ++ part ++ after)%string
    /\ PyStr.lower part = w.

(** The name test as [visit_Assign] computes it. *)
Definition looks_secret (id : string) : bool :=
  existsb (fun secret => PyStr.contains secret (PyStr.lower id)) secret_words.

(** The Finding of the secret detector for one target. *)
Definition secret_finding (filename : string) (code_lines : list string)
    (lineno : Z) (id : string) : Finding :=
  finding_at filename code_lines lineno
    ("Possible Hardcoded Secret: '" ++ id ++ "'")%string "High".

(** The identifiers among the targets that pass the name test. *)
Fixpoint secret_targets (targets : list node) : list string :=
  match targets with
  | [] => []
  | Name _ id _ :: rest =>
      if looks_secret id then id :: secret_targets rest
      else secret_targets rest
  | _ :: rest => secret_targets rest
  end.

(** One round of the loop over the targets in [visit_Assign]. *)
Definition target_findings (filename : string) (code_lines : list string)
    (lineno : Z) (value : node) (target : node) : list Finding :=
  match target with
  | Name _ id _ =>
      if looks_secret id then
        match value with
        | Constant _ (CStr _) => [secret_finding filename code_lines lineno id]
        | _ => []
        end
      else []
  | _ => []
  end.

(** Exactly one Finding, at line [ln], of severity [sev], whose issue text
    names [what]. *)
Definition one_finding (l : list Finding) (ln : Z) (sev what : string) : Prop :=
  exists f, l = [f] /\ line f = ln /\ severity f = sev
            /\ PyStr.contains what (issue f) = true.

(** The spec's dangerous-call shapes: a bare name among the dynamic
    execution and input primitives, or [module.method] on the OS and
    subprocess modules. *)
Definition dangerous_callee (func : node) : Prop :=
  (exists l f ctx, func = Name l f ctx /\ In f ["eval"; "exec"; "input"])
  \/ (exists l l' m ctx ctx',
         func = Attribute l (Name l' "os" ctx') m ctx
         /\ In m ["system"; "popen"])
  \/ (exists l l' m ctx ctx',
         func = Attribute l (Name l' "subprocess" ctx') m ctx
         /\ In m ["run"; "call"; "Popen"]).

Definition is_dangerous_call (ln : Z) (c : node) : Prop :=
  exists func args keywords,
    c = Call ln func args keywords /\ dangerous_callee func.

(** A single-target assignment of a string literal to a secret-like name. *)
Definition is_secret_assignment (ln : Z) (a : node) : Prop :=
  exists l1 id ctx l2 s,
    a = Assign ln [Name l1 id ctx] (Constant l2 (CStr s)) /\ secret_like id.


(** ** The examples of the specification

    The texts, and what [ast.parse] of CPython 3.11 makes of them. *)

Module Examples.

Import PyStr.

Definition src_api_key : string :=
  ("api_key = " ++ dquote ++ "abc123" ++ dquote)%string.
Definition tree_api_key : node :=
  Module_ [Assign 1 [Name 1 "api_key" CtxStore] (Constant 1 (CStr "abc123"))].

Definition src_token_call : string := "token = some_function_call()".
Definition tree_token_call : node :=
  Module_ [Assign 1 [Name 1 "token" CtxStore]
             (Call 1 (Name 1 "some_function_call" CtxLoad) [] [])].

Definition src_eval : string := "eval(user_input)".
Definition tree_eval : node :=
  Module_ [Expr 1 (Call 1 (Name 1 "eval" CtxLoad)
                     [Name 1 "user_input" CtxLoad] [])].

Definition src_input : string := "input()".
Definition tree_input : node :=
  Module_ [Expr 1 (Call 1 (Name 1 "input" CtxLoad) [] [])].

Definition src_os_system : string :=
  ("os.system(" ++ dquote ++ "rm -rf /" ++ dquote ++ ")")%string.
Definition tree_os_system : node :=
  Module_ [Expr 1 (Call 1 (Attribute 1 (Name 1 "os" CtxLoad) "system" CtxLoad)
                     [Constant 1 (CStr "rm -rf /")] [])].

Definition src_popen : string := "subprocess.Popen(cmd)".
Definition tree_popen : node :=
  Module_ [Expr 1 (Call 1 (Attribute 1 (Name 1 "subprocess" CtxLoad) "Popen"
                             CtxLoad)
                     [Name 1 "cmd" CtxLoad] [])].

Definition src_annotated : string :=
  ("api_key: str = " ++ dquote ++ "abc123" ++ dquote)%string.
Definition tree_annotated : node :=
  Module_ [AnnAssign 1 (Name 1 "api_key" CtxStore) (Name 1 "str" CtxLoad)
             (Some (Constant 1 (CStr "abc123"))) 1].

Definition src_chained : string :=
  ("api_key = secret_token = " ++ dquote ++ "abc" ++ dquote)%string.
Definition tree_chained : node :=
  Module_ [Assign 1 [Name 1 "api_key" CtxStore; Name 1 "secret_token" CtxStore]
             (Constant 1 (CStr "abc"))].

(** [Try] has the fields body, handlers, orelse, finalbody. *)
Definition src_empty_handler : string :=
  ("try:" ++ LF ++ "    f()" ++ LF ++ "except Exception:" ++ LF
   ++ "    pass" ++ LF)%string.
Definition tree_empty_handler : node :=
  Module_ [Other "Try"
             [Expr 2 (Call 2 (Name 2 "f" CtxLoad) [] []);
              ExceptHandler 3 (Some (Name 3 "Exception" CtxLoad)) None
                [Pass 4]]].

Definition src_logging_handler : string :=
  ("try:" ++ LF ++ "    f()" ++ LF ++ "except Exception as e:" ++ LF
   ++ "    log(e)" ++ LF ++ "    pass" ++ LF)%string.
Definition tree_logging_handler : node :=
  Module_ [Other "Try"
             [Expr 2 (Call 2 (Name 2 "f" CtxLoad) [] []);
              ExceptHandler 3 (Some (Name 3 "Exception" CtxLoad)) (Some "e")
                [Expr 4 (Call 4 (Name 4 "log" CtxLoad) [Name 4 "e" CtxLoad] []);
                 Pass 5]]].

Definition src_ordering : string :=
  ("import os" ++ LF ++ "api_key = " ++ dquote ++ "abc123" ++ dquote ++ LF
   ++ LF ++ LF ++ "eval(user_input)" ++ LF)%string.
Definition tree_ordering : node :=
  Module_ [Other "Import" [Other "alias" []];
           Assign 2 [Name 2 "api_key" CtxStore] (Constant 2 (CStr "abc123"));
           Expr 5 (Call 5 (Name 5 "eval" CtxLoad)
                     [Name 5 "user_input" CtxLoad] [])].

(** A block opener followed by a CR LF line end and nothing else: the
    error is reported on the line after the only one. *)
Definition src_crlf_def : string := ("def f():" ++ CR ++ LF)%string.
Definition outcome_crlf_def : parse_outcome :=
  RaisedSyntaxError (Some 2)
    "expected an indented block after function definition on line 1".

Definition table : list (string * parse_outcome) :=
  [ (src_api_key, Parsed tree_api_key);
    (src_token_call, Parsed tree_token_call);
    (src_eval, Parsed tree_eval);
    (src_input, Parsed tree_input);
    (src_os_system, Parsed tree_os_system);
    (src_popen, Parsed tree_popen);
    (src_annotated, Parsed tree_annotated);
    (src_chained, Parsed tree_chained);
    (src_empty_handler, Parsed tree_empty_handler);
    (src_logging_handler, Parsed tree_logging_handler);
    (src_ordering, Parsed tree_ordering);
    (src_crlf_def, outcome_crlf_def) ].

(** A parser that knows the texts above and rejects every other one. *)
Definition parse (code : string) : parse_outcome :=
  match find (fun entry => String.eqb (fst entry) code) table with
  | Some entry => snd entry
  | None => RaisedSyntaxError (Some 1) "invalid syntax"
  end.

End Examples.

(** ** The call stack of the interpreter

    CPython raises [RecursionError] when a call would take the stack past
    [sys.getrecursionlimit()].  The traversal is recursive, and [frames n] is
    the number of frames a call of [visit] on [n] stacks up at its deepest,
    as CPython 3.11 counts them:
    - [visit] is one frame and the method it dispatches to another; a
      [visit_*] method of [SecurityVisitor] then calls [generic_visit], a
      third;
    - [generic_visit] runs the generator [iter_fields], one frame while it
      yields, and calls [visit] on each child: below it the stack grows by
      one frame or by the deepest child, whichever is more;
    - [add_issue] and the generator expression of [visit_Assign] take one
      frame inside the [visit_*] method, never more than [generic_visit]
      and [iter_fields] take after them;
    - for a [Constant] the base class has a method [visit_Constant], which
      calls [generic_visit]: four frames;
    - the [ctx] of a [Name] or an [Attribute] is a child node without
      fields, three frames below [generic_visit]; in an [Other] node the
      context and operator nodes are among the children. *)
Fixpoint frames (n : node) : nat :=
  match n with
  | Module_ body => 2 + Nat.max 1 (list_max (map frames body))
  | Assign _ targets value =>
      3 + Nat.max 1 (Nat.max (list_max (map frames targets)) (frames value))
  | AnnAssign _ target annotation value _ =>
      2 + Nat.max 1
            (Nat.max (frames target)
               (Nat.max (frames annotation)
                  match value with
                  | Some v => frames v
                  | None => 0
                  end))
  | Expr _ value => 2 + Nat.max 1 (frames value)
  | Pass _ => 3
  | ExceptHandler _ type _ body =>
      3 + Nat.max 1
            (Nat.max match type with
                     | Some t => frames t
                     | None => 0
                     end
               (list_max (map frames body)))
  | Call _ func args keywords =>
      3 + Nat.max 1
            (Nat.max (frames func)
               (Nat.max (list_max (map frames args))
                  (list_max (map frames keywords))))
  | Attribute _ value _ _ => 2 + Nat.max (frames value) 3
  | Name _ _ _ => 5
  | Constant _ _ => 4
  | Other _ children => 2 + Nat.max 1 (list_max (map frames children))
  end%nat.

(** What a call of [scan_code] comes to: a returned list, or a
    [RecursionError] that leaves it. *)
Inductive scan_result : Type :=
| Returned (findings : list Finding)
| RaisedRecursionError.

(** [scan_code] called with room for [room] more frames on the stack: the
    recursion limit less the depth of the stack at the frame of [scan_code]
    (998 for a call from the top level of a script under the default limit
    of 1000).  The [try] of [scan_code] ends before the traversal: nothing
    catches what [visitor.visit(tree)] raises. *)
Definition scan_code_in (room : nat) (ast_parse : string -> parse_outcome)
    (code filename : string) : scan_result :=
  match ast_parse code with
  | Parsed tree =>
      if (frames tree <=? room)%nat
      then Returned (scan_code ast_parse code filename)
      else RaisedRecursionError
  | _ => Returned (scan_code ast_parse code filename)
  end.

(** The tree of [1 + 1 + ... + 1] with [more] additions: [BinOp] has the
    fields left, op, right, and the sum nests to the left. *)
Fixpoint sum_of_ones (more : nat) : node :=
  match more with
  | O => Constant 1 (CInt 1)
  | S k =>
      Other "BinOp" [sum_of_ones k; Other "Add" []; Constant 1 (CInt 1)]
  end.

Fixpoint text_of_ones (more : nat) : string :=
  match more with
  | O => "1"
  | S k => (text_of_ones k ++ "+1")%string
  end.

(** The unit [x = 1+1+...+1]. *)
Definition long_sum_text (more : nat) : string :=
  ("x = " ++ text_of_ones more)%string.
Definition long_sum_tree (more : nat) : node :=
  Module_ [Assign 1 [Name 1 "x" CtxStore] (sum_of_ones more)].

(** ** Python strings used by [main.py] *)

Module PyPath.

(** [s.startswith(prefix)] *)
Definition startswith (s prefix : string) : bool := String.prefix prefix s.

(** [s.endswith(suffix)]: [s] is [suffix], or what follows its first
    character ends with it. *)
Fixpoint endswith (s suffix : string) : bool :=
  String.eqb s suffix
  || match s with
     | EmptyString => false
     | String _ r => endswith r suffix
     end.

(** [s.rstrip(ch)] for a one-character argument. *)
Fixpoint rstrip_char (ch : ascii) (s : string) : string :=
  match s with
  | EmptyString => EmptyString
  | String c r =>
      match rstrip_char ch r with
      | EmptyString =>
          if Ascii.eqb c ch then EmptyString else String c EmptyString
      | r' => String c r'
      end
  end.

(** [cur] is the part being read. *)
Fixpoint split_from (sep : ascii) (cur s : string) : list string :=
  match s with
  | EmptyString => [cur]
  | String c r =>
      if Ascii.eqb c sep then cur :: split_from sep EmptyString r
      else split_from sep (cur ++ String c EmptyString)%string r
  end.

(** [s.split(sep)] for a one-character separator: every occurrence cuts,
    empty parts are kept. *)
Definition split (sep : ascii) (s : string) : list string :=
  split_from sep EmptyString s.

Definition slash : ascii := ascii_of_N 47.

End PyPath.

(** ** main.py *)

(** The dict [calculate_trust_score] returns. *)
Record TrustData : Type := mkTrust {
  score : Z;
  grade : string;
  details : string
}.

(** [UploadFile]: the name and the bytes of the upload. *)
Record UploadFile : Type := mkUpload {
  upload_filename : string;
  upload_content : string
}.

(** What [analyze_file] comes to. *)
Inductive file_response : Type :=
| FileHTTPException (status_code : Z) (detail : string)
| FileIssues (issues : list Finding)
| FileRaisedRecursionError.

(** What [analyze_repo] comes to: the [error] key is there only after a
    failed clone. *)
Inductive repo_response : Type :=
| RepoHTTPException (status_code : Z) (detail : string)
| RepoResult (issues : list Finding) (trust : option TrustData)
             (error : option string).

(** One step of [os.walk]: the directory, its sub-directories, its files. *)
Definition walk_entry : Type := (string * list string * list string)%type.

Definition MAX_FILE_SIZE : Z := 1 * 1024 * 1024.

Section Main.

(** The world around [main.py]: the parser and the room on the stack, as for
    [scan_code_in]; [bytes.decode("utf-8")] ([None]: [UnicodeDecodeError]);
    the environment; the part of [calculate_trust_score] from
    [requests.get] on, with its own fallback on any exception; the clone
    ([Some e]: it raised, with [str(e)]); the directory walk, the reading of
    a text file ([None]: an exception) and the two path functions. *)
Variable ast_parse : string -> parse_outcome.
Variable room : nat.
Variable decode_utf8 : string -> option string.
Variable environ_get : string -> option string.
Variable score_from_github : string -> list (string * string) -> TrustData.
Variable clone_from : string -> string -> option string.
Variable os_walk : string -> list walk_entry.
Variable read_text : string -> option string.
Variable path_join : string -> string -> string.
Variable relpath : string -> string -> option string.

(** [calculate_trust_score], lines 50 to 61 as written; [None] is its
    [return None], and an [IndexError] of [parts[-2]] would end in the
    fallback of its [except]. *)
Definition calculate_trust_score (repo_url : string) : option TrustData :=
  let parts := PyPath.split PyPath.slash
                 (PyPath.rstrip_char PyPath.slash repo_url) in
  if (length parts <? 2)%nat then None
  else
    match PyList.getitem parts (-2), PyList.getitem parts (-1) with
    | Some owner, Some repo_name =>
        let api_url :=
          ("https://api.github.com/repos/" ++ owner ++ "/" ++ repo_name)%string in
        let headers :=
          match environ_get "GITHUB_TOKEN" with
          | Some (String c rest as github_token) =>
              [("Authorization", ("Bearer " ++ github_token)%string)]
          | _ => []
          end in
        Some (score_from_github api_url headers)
    | _, _ => Some (mkTrust 0 "Unknown" "Error calculating score")
    end.

Definition analyze_file (file : UploadFile) : file_response :=
  let file_size := Z.of_nat (String.length (upload_content file)) in
  if MAX_FILE_SIZE <? file_size then
    FileHTTPException 413 "File too large. Max size is 1MB."
  else
    let content := upload_content file in
    match decode_utf8 content with
    | None =>
        FileIssues [mkFinding (upload_filename file) 0 "File is not valid text"
                      "Error" EmptyString]
    | Some text =>
        match scan_code_in room ast_parse text (upload_filename file) with
        | Returned scan_results => FileIssues scan_results
        | RaisedRecursionError => FileRaisedRecursionError
        end
    end.

(** The two loops of [analyze_repo] over the walk.  The bare [except] of the
    inner [try] covers the reading, [relpath] and [scan_code]: whatever one
    of them raises, the file adds nothing. *)
Definition scan_walk (repo_path : string) (walk : list walk_entry)
  : list Finding :=
  fold_left
    (fun scan_results (entry : walk_entry) =>
       let '(root, _, files) := entry in
       fold_left
         (fun scan_results file =>
            if PyPath.endswith file ".py" then
              let full_path := path_join root file in
              match read_text full_path with
              | Some content =>
                  match relpath full_path repo_path with
                  | Some relative_filename =>
                      match scan_code_in room ast_parse content
                              relative_filename with
                      | Returned issues => scan_results ++ issues
                      | RaisedRecursionError => scan_results
                      end
                  | None => scan_results
                  end
              | None => scan_results
              end
            else scan_results)
         files scan_results)
    walk [].

(** What one file of the walk adds to [scan_results]. *)
Definition file_findings (repo_path root file : string) : list Finding :=
  scan_walk repo_path [(root, [], [file])].

(** [analyze_repo], with [unique_id] the [str(uuid.uuid4())] it draws; the
    removal of the clone in its [finally] leaves the response as it is. *)
Definition analyze_repo (repo_url unique_id : string) : repo_response :=
  if negb (PyPath.startswith repo_url "https://github.com/") then
    RepoHTTPException 400 "Invalid URL. Must start with 'https://github.com/'"
  else
    let trust_data := calculate_trust_score repo_url in
    let repo_path := ("./temp_repo_" ++ unique_id)%string in
    match clone_from repo_url repo_path with
    | Some e => RepoResult [] trust_data (Some e)
    | None => RepoResult (scan_walk repo_path (os_walk repo_path)) trust_data None
    end.

End Main.

(** A world for running [main.py] on examples: ASCII bytes decode to
    themselves, the parser is the one of the examples, the clone succeeds,
    and the walk finds one directory. *)
Module World.

Definition decode_utf8 (content : string) : option string := Some content.

Definition environ_get (name : string) : option string :=
  if String.eqb name "GITHUB_TOKEN" then Some "t0k" else None.

Definition score_from_github (api_url : string)
    (headers : list (string * string)) : TrustData :=
  mkTrust 0 "Unknown" api_url.

Definition clone_from (repo_url repo_path : string) : option string := None.

Definition os_walk (repo_path : string) : list walk_entry :=
  [(repo_path, ["docs"], ["README.md"; "secret.py"; "broken.py"; "gone.py"])].

Definition path_join (root file : string) : string :=
  (root ++ "/" ++ file)%string.

(** The files of the walk by their last letters before [.py]. *)
Definition read_text (full_path : string) : option string :=
  if PyPath.endswith full_path "secret.py" then Some Examples.src_api_key
  else if PyPath.endswith full_path "broken.py" then Some Examples.src_crlf_def
  else if PyPath.endswith full_path "README.md" then Some Examples.src_eval
  else None.

Definition relpath (full_path start : string) : option string :=
  if PyPath.endswith full_path "secret.py" then Some "secret.py"
  else if PyPath.endswith full_path "broken.py" then Some "broken.py"
  else if PyPath.endswith full_path "gone.py" then Some "gone.py"
  else Some "README.md".

Definition on_upload : UploadFile -> file_response :=
  analyze_file Examples.parse 1000 decode_utf8.

Definition on_walk : string -> list walk_entry -> list Finding :=
  scan_walk Examples.parse 1000 read_text path_join relpath.

Definition on_repo : string -> string -> repo_response :=
  analyze_repo Examples.parse 1000 environ_get score_from_github
    clone_from os_walk read_text path_join relpath.

End World.

(** ** Shapes of strings, for the properties of the snippets *)

(** No white space at the start. *)
Definition starts_clean (s : string) : bool :=
  match s with
  | EmptyString => true
  | String c _ => negb (PyStr.isspace c)
  end.

(** No white space at the end. *)
Fixpoint ends_clean (s : string) : bool :=
  match s with
  | EmptyString => true
  | String c EmptyString => negb (PyStr.isspace c)
  | String _ r => ends_clean r
  end.

(** No line boundary inside. *)
Fixpoint no_linebreak (s : string) : bool :=
  match s with
  | EmptyString => true
  | String c r => negb (PyStr.is_linebreak c) && no_linebreak r
  end.

(** A single line without white space around it. *)
Definition trimmed_line (s : string) : bool :=
  starts_clean s && ends_clean s && no_linebreak s.

(** The text made of the lines, each followed by the line end [eol]. *)
Fixpoint unlines (eol : string) (lines : list string) : string :=
  match lines with
  | [] => EmptyString
  | l :: rest => (l ++ eol ++ unlines eol rest)%string
  end.

(** ** Definitions for the properties beyond the claims *)

(** The classes the visitor has a method for. *)
Definition has_visit_method (n : node) : bool :=
  match n with
  | Assign _ _ _ | Call _ _ _ _ | ExceptHandler _ _ _ _ => true
  | _ => false
  end.


(** The Finding with another filename. *)
Definition relabel (label : string) (f : Finding) : Finding :=
  mkFinding label (line f) (issue f) (severity f) (code f).

(** [ch in s] for a character. *)
Fixpoint has_char (ch : ascii) (s : string) : bool :=
  match s with
  | EmptyString => false
  | String c r => Ascii.eqb c ch || has_char ch r
  end.

(** [s] is made of the character [ch] only. *)
Fixpoint only_char (ch : ascii) (s : string) : bool :=
  match s with
  | EmptyString => true
  | String c r => Ascii.eqb c ch && only_char ch r
  end.

(** A step of the walk with its Python files only. *)
Definition keep_py (entry : walk_entry) : walk_entry :=
  let '(root, _, files) := entry in
  (root, [], filter (fun file => PyPath.endswith file ".py") files).

(** ** Definitions for the revised claims *)

(** An annotated assignment with a call in the annotation. *)
Definition annotated_with_call_text : string :=
  ("api_key: eval(" ++ PyStr.dquote ++ "str" ++ PyStr.dquote ++ ") = "
   ++ PyStr.dquote ++ "abc123" ++ PyStr.dquote)%string.
Definition annotated_with_call_tree : node :=
  Module_
    [AnnAssign 1 (Name 1 "api_key" CtxStore)
       (Call 1 (Name 1 "eval" CtxLoad) [Constant 1 (CStr "str")] [])
       (Some (Constant 1 (CStr "abc123"))) 1].

(** A class attribute [api_key: Optional[str] = "abc123"] on line 2;
    [Subscript] has the fields value, slice, ctx. *)
Definition class_attribute_tree : node :=
  Module_
    [Other "ClassDef"
       [AnnAssign 2 (Name 2 "api_key" CtxStore)
          (Other "Subscript"
             [Name 2 "Optional" CtxLoad; Name 2 "str" CtxLoad; Other "Load" []])
          (Some (Constant 2 (CStr "abc123"))) 1]].

(** No node of the list is of a class the visitor has a method for. *)
Definition triggers_nothing (l : list node) : bool :=
  forallb (fun n => negb (has_visit_method n)) l.

(** ** Proof tools *)

(** Case analysis on whatever a hypothesis about emitted Findings still
    matches on; the branches that emit nothing close at once. *)
Ltac break_match_in H :=
  repeat match type of H with
    | context [match ?x with _ => _ end] =>
        destruct x; try (exfalso; exact H)
    end.

(** The same on the goal, for the equations of the visitor's state. *)
Ltac break_match_goal tac :=
  repeat match goal with
    | |- context [match ?x with _ => _ end] => destruct x; try tac
    end.

(** ** The tree: children, size and induction *)

Lemma node_size_in_sum (c : node) (l : list node) :
  In c l -> (node_size c <= list_sum (map node_size l))%nat.
Proof.
  induction l as [|x l IH]; simpl; intros H; [contradiction|].
  destruct H as [-> | H]; [lia | specialize (IH H); lia].
Qed.

Lemma child_smaller (n c : node) :
  In c (iter_child_nodes n) -> (node_size c < node_size n)%nat.
Proof.
  destruct n; simpl; intros H;
    repeat match goal with
      | H : In _ (_ ++ _) |- _ => apply in_app_or in H
      | H : In _ (option_nodes ?o) |- _ => destruct o; simpl in H
      | H : _ \/ _ |- _ => destruct H
      | H : In _ (_ :: _) |- _ => simpl in H
      | H : _ = c |- _ => subst c
      | H : In c ?l |- _ => apply node_size_in_sum in H
      | H : False |- _ => contradiction
      end; simpl in *; try lia.
Qed.

(** Induction on the tree: a property that holds of a node whenever it holds
    of its children holds of every node. *)
Lemma node_children_ind (P : node -> Prop) :
  (forall n, (forall c, In c (iter_child_nodes n) -> P c) -> P n) ->
  forall n, P n.
Proof.
  intros step n.
  remember (node_size n) as k eqn:Hk.
  revert n Hk.
  induction k as [k IH] using lt_wf_ind.
  intros n ->. apply step. intros c Hc.
  apply (IH (node_size c)); [apply child_smaller; exact Hc | reflexivity].
Qed.

Lemma flat_map_nested {A B C : Type} (f : B -> list C) (g : A -> list B)
    (l : list A) :
  flat_map f (flat_map g l) = flat_map (fun x => flat_map f (g x)) l.
Proof.
  induction l as [|x l IH]; simpl; [reflexivity|].
  rewrite flat_map_app, IH. reflexivity.
Qed.

Lemma preorder_children (n : node) :
  preorder n = n :: flat_map preorder (iter_child_nodes n).
Proof.
  destruct n; simpl; f_equal;
    repeat rewrite flat_map_app; simpl;
    repeat rewrite app_nil_r; try reflexivity.
  - destruct value; simpl; rewrite ?app_nil_r; reflexivity.
  - destruct type; simpl; rewrite ?app_nil_r; reflexivity.
Qed.

(** ** The visitor only appends *)

Lemma visitor_eta (s : SecurityVisitor.t) :
  s = SecurityVisitor.mk (SecurityVisitor.issues s ++ [])
        (SecurityVisitor.filename s) (SecurityVisitor.code_lines s).
Proof. destruct s; simpl; rewrite app_nil_r; reflexivity. Qed.

Lemma add_issue_appends (self : SecurityVisitor.t) (ln : Z) (text sev : string) :
  SecurityVisitor.add_issue self ln text sev
  = SecurityVisitor.mk
      (SecurityVisitor.issues self
       ++ [finding_at (SecurityVisitor.filename self)
             (SecurityVisitor.code_lines self) ln text sev])
      (SecurityVisitor.filename self) (SecurityVisitor.code_lines self).
Proof. reflexivity. Qed.

Lemma fold_left_appends {B : Type} (f : SecurityVisitor.t -> B -> SecurityVisitor.t)
    (g : string -> list string -> B -> list Finding) (l : list B) :
  (forall b, In b l -> forall s,
      f s b = SecurityVisitor.mk
                (SecurityVisitor.issues s
                 ++ g (SecurityVisitor.filename s) (SecurityVisitor.code_lines s) b)
                (SecurityVisitor.filename s) (SecurityVisitor.code_lines s)) ->
  forall s,
    fold_left f l s
    = SecurityVisitor.mk
        (SecurityVisitor.issues s
         ++ flat_map (g (SecurityVisitor.filename s) (SecurityVisitor.code_lines s)) l)
        (SecurityVisitor.filename s) (SecurityVisitor.code_lines s).
Proof.
  induction l as [|b l IH]; intros Hf s; simpl.
  - apply visitor_eta.
  - rewrite IH by (intros; apply Hf; right; assumption).
    rewrite (Hf b (or_introl eq_refl) s); simpl.
    rewrite <- app_assoc. reflexivity.
Qed.

Lemma visit_Assign_appends (k : SecurityVisitor.t -> SecurityVisitor.t)
    (self : SecurityVisitor.t) (lineno : Z) (targets : list node) (value : node) :
  SecurityVisitor.visit_Assign k self lineno targets value
  = k (SecurityVisitor.mk
         (SecurityVisitor.issues self
          ++ flat_map (target_findings (SecurityVisitor.filename self)
                         (SecurityVisitor.code_lines self) lineno value) targets)
         (SecurityVisitor.filename self) (SecurityVisitor.code_lines self)).
Proof.
  unfold SecurityVisitor.visit_Assign. f_equal.
  apply (fold_left_appends _
           (fun fn lines => target_findings fn lines lineno value)).
  intros target _ s. unfold target_findings, looks_secret, secret_words.
  break_match_goal ltac:(apply visitor_eta); reflexivity.
Qed.

Lemma emitted_Assign (fn : string) (lines : list string) (lineno : Z)
    (targets : list node) (value : node) :
  emitted fn lines (Assign lineno targets value)
  = flat_map (target_findings fn lines lineno value) targets.
Proof.
  unfold emitted, own_issues. rewrite visit_Assign_appends. reflexivity.
Qed.

Lemma own_issues_appends (self : SecurityVisitor.t) (n : node) :
  own_issues self n
  = SecurityVisitor.mk
      (SecurityVisitor.issues self
       ++ emitted (SecurityVisitor.filename self)
            (SecurityVisitor.code_lines self) n)
      (SecurityVisitor.filename self) (SecurityVisitor.code_lines self).
Proof.
  destruct n; try apply visitor_eta.
  - rewrite emitted_Assign. unfold own_issues.
    rewrite visit_Assign_appends. reflexivity.
  - unfold emitted, own_issues, SecurityVisitor.visit_ExceptHandler.
    break_match_goal ltac:(apply visitor_eta); reflexivity.
  - unfold emitted, own_issues, SecurityVisitor.visit_Call.
    break_match_goal ltac:(apply visitor_eta); reflexivity.
Qed.

Lemma visit_dispatch (self : SecurityVisitor.t) (n : node) :
  SecurityVisitor.visit self n
  = SecurityVisitor.generic_visit (own_issues self n) n.
Proof.
  unfold SecurityVisitor.generic_visit.
  destruct n; simpl; try reflexivity.
  - unfold SecurityVisitor.visit_Assign. rewrite fold_left_app. reflexivity.
  - destruct value; reflexivity.
  - unfold SecurityVisitor.visit_ExceptHandler. rewrite fold_left_app.
    destruct type; reflexivity.
  - unfold SecurityVisitor.visit_Call. rewrite fold_left_app. reflexivity.
Qed.

(** Visiting a tree appends, in document order, what each node triggers. *)
Lemma visit_appends (n : node) :
  forall self,
    SecurityVisitor.visit self n
    = SecurityVisitor.mk
        (SecurityVisitor.issues self
         ++ flat_map (emitted (SecurityVisitor.filename self)
                        (SecurityVisitor.code_lines self)) (preorder n))
        (SecurityVisitor.filename self) (SecurityVisitor.code_lines self).
Proof.
  induction n as [n IH] using node_children_ind. intros self.
  rewrite visit_dispatch. unfold SecurityVisitor.generic_visit.
  rewrite (fold_left_appends _
             (fun fn lines c => flat_map (emitted fn lines) (preorder c)))
    by (intros c Hc s; apply IH; exact Hc).
  rewrite own_issues_appends; simpl.
  rewrite preorder_children; simpl.
  rewrite flat_map_nested, <- app_assoc. reflexivity.
Qed.

Lemma scan_code_parsed (ast_parse : string -> parse_outcome)
    (code filename : string) (tree : node) :
  ast_parse code = Parsed tree ->
  scan_code ast_parse code filename
  = flat_map (emitted filename (PyStr.splitlines code)) (preorder tree).
Proof.
  intros H. unfold scan_code. rewrite H. rewrite visit_appends. reflexivity.
Qed.

(** ** Substrings and letter case *)

Lemma prefix_app (w s : string) :
  String.prefix w s = true <-> exists rest, s = (w ++ rest)%string.
Proof.
  revert s. induction w as [|c w IH]; intros s.
  - split; [intros _; exists s; reflexivity | intros _; destruct s; reflexivity].
  - destruct s as [|d s]; simpl.
    + split; [discriminate | intros [rest H]; discriminate].
    + destruct (Ascii.ascii_dec c d) as [->|Hne].
      * rewrite IH. split; intros [rest H]; exists rest.
        -- rewrite H; reflexivity.
        -- injection H as H; exact H.
      * split; [discriminate|].
        intros [rest H]. injection H as Hd _. congruence.
Qed.

Lemma contains_cons (w : string) (d : ascii) (s : string) :
  PyStr.contains w (String d s)
  = String.prefix w (String d s) || PyStr.contains w s.
Proof. reflexivity. Qed.

Lemma contains_app (w s : string) :
  PyStr.contains w s = true
  <-> exists before after, s = (before ++ w ++ after)%string.
Proof.
  induction s as [|d s IH].
  - change (PyStr.contains w EmptyString)
      with (String.prefix w EmptyString || false).
    rewrite orb_false_r, prefix_app. split.
    + intros [rest H]. exists EmptyString, rest. exact H.
    + intros [[|b before] [after H]]; [exists after; exact H | discriminate].
  - rewrite contains_cons, orb_true_iff, IH, prefix_app. split.
    + intros [[rest H] | [before [after H]]].
      * exists EmptyString, rest. exact H.
      * exists (String d before), after. simpl. rewrite H. reflexivity.
    + intros [[|b before] [after H]].
      * left. exists after. exact H.
      * right. exists before, after. simpl in H. injection H as _ H. exact H.
Qed.

Lemma lower_app (a b : string) :
  PyStr.lower (a ++ b) = (PyStr.lower a ++ PyStr.lower b)%string.
Proof. induction a as [|c a IH]; simpl; [reflexivity | rewrite IH; reflexivity]. Qed.

Lemma lower_split (s x y : string) :
  PyStr.lower s = (x ++ y)%string ->
  exists s1 s2, s = (s1 ++ s2)%string /\ PyStr.lower s1 = x /\ PyStr.lower s2 = y.
Proof.
  revert s. induction x as [|c x IH]; intros s H; simpl in H.
  - exists EmptyString, s. repeat split; assumption.
  - destruct s as [|d s]; simpl in H; [discriminate|].
    injection H as Hc H. destruct (IH s H) as [s1 [s2 [-> [H1 H2]]]].
    exists (String d s1), s2. simpl. rewrite Hc, H1. repeat split; assumption.
Qed.

(** The name test of [visit_Assign] is the spec's: some part of the
    identifier is one of the four words up to letter case. *)
Lemma looks_secret_iff (id : string) :
  looks_secret id = true <-> secret_like id.
Proof.
  unfold looks_secret, secret_like. rewrite existsb_exists. split.
  - intros [w [Hin Hc]]. apply contains_app in Hc as [x [y Hxy]].
    apply lower_split in Hxy as [before [rest [-> [_ Hrest]]]].
    apply lower_split in Hrest as [part [after [-> [Hpart _]]]].
    exists w, before, part, after. repeat split; assumption.
  - intros [w [before [part [after [Hin [-> Hpart]]]]]].
    exists w. split; [exact Hin|].
    apply contains_app. exists (PyStr.lower before), (PyStr.lower after).
    rewrite !lower_app, Hpart. reflexivity.
Qed.

Lemma contains_self_between (pre w post : string) :
  PyStr.contains w (pre ++ w ++ post) = true.
Proof. apply contains_app. exists pre, post. reflexivity. Qed.

(** ** The detectors, node by node *)

Lemma target_findings_secret (fn : string) (lines : list string) (ln : Z)
    (targets : list node) (l : Z) (s : string) :
  flat_map (target_findings fn lines ln (Constant l (CStr s))) targets
  = map (secret_finding fn lines ln) (secret_targets targets).
Proof.
  induction targets as [|t targets IH]; simpl; [reflexivity|].
  destruct t; simpl; try exact IH.
  destruct (looks_secret id); simpl; rewrite IH; reflexivity.
Qed.

Lemma emitted_leaf (fn : string) (lines : list string) (n : node) :
  match n with
  | Assign _ _ _ | Call _ _ _ _ | ExceptHandler _ _ _ _ => False
  | _ => True
  end ->
  emitted fn lines n = [].
Proof. destruct n; simpl; intros H; try contradiction; reflexivity. Qed.

Lemma dangerous_call_emits (fn : string) (lines : list string) (ln : Z)
    (func : node) (args keywords : list node) :
  dangerous_callee func ->
  exists text sev,
    emitted fn lines (Call ln func args keywords)
    = [finding_at fn lines ln text sev]
    /\ (sev = "High" \/ sev = "Medium").
Proof.
  intros [[l [f [ctx [-> Hf]]]] | [[l [l' [m [c [c' [-> Hm]]]]]]
                                  | [l [l' [m [c [c' [-> Hm]]]]]]]];
    simpl in *;
    repeat match goal with
      | H : _ \/ _ |- _ => destruct H
      | H : False |- _ => contradiction
      | H : _ = _ |- _ => subst
      end;
    eexists; eexists; (split; [reflexivity | auto]).
Qed.

Lemma emitted_shape (fn : string) (lines : list string) (n : node) (f : Finding) :
  In f (emitted fn lines n) ->
  exists ln text sev,
    node_lineno n = Some ln
    /\ f = finding_at fn lines ln text sev
    /\ In sev ["High"; "Medium"; "Low"].
Proof.
  intros H.
  assert (Hone : forall ln text sev,
             node_lineno n = Some ln ->
             In sev ["High"; "Medium"; "Low"] ->
             In f [finding_at fn lines ln text sev] ->
             exists ln' text' sev',
               node_lineno n = Some ln'
               /\ f = finding_at fn lines ln' text' sev'
               /\ In sev' ["High"; "Medium"; "Low"]).
  { intros ln text sev Hln Hsev [<- | []]. exists ln, text, sev.
    repeat split; assumption. }
  destruct n; try (exfalso; exact H).
  - rewrite emitted_Assign in H. apply in_flat_map in H as [t [_ H]].
    unfold target_findings in H. break_match_in H.
    eapply Hone; [reflexivity | | exact H]. simpl; auto.
  - unfold emitted, own_issues, SecurityVisitor.visit_ExceptHandler in H.
    break_match_in H;
      (eapply Hone; [reflexivity | | exact H]; simpl; auto).
  - unfold emitted, own_issues, SecurityVisitor.visit_Call in H.
    break_match_in H;
      (eapply Hone; [reflexivity | | exact H]; simpl; auto).
Qed.

Lemma or_zero_default (x : option Z) :
  or_zero x = match x with Some n => n | None => 0 end.
Proof.
  destruct x as [n|]; simpl; [|reflexivity].
  destruct (Z.eqb_spec n 0); congruence.
Qed.


(** ** The scanner on the examples *)

Example scan_eval :
  scan_code Examples.parse Examples.src_eval "app.py"
  = [mkFinding "app.py" 1 "Use of Dangerous Function (eval)" "High"
       "eval(user_input)"].
Proof. vm_compute. reflexivity. Qed.

Example scan_input :
  scan_code Examples.parse Examples.src_input "app.py"
  = [mkFinding "app.py" 1 "Use of input() (Validate this data!)" "Medium"
       "input()"].
Proof. vm_compute. reflexivity. Qed.

Example scan_os_system :
  scan_code Examples.parse Examples.src_os_system "app.py"
  = [mkFinding "app.py" 1 "Potential OS Command Injection: os.system" "High"
       Examples.src_os_system].
Proof. vm_compute. reflexivity. Qed.

Example scan_popen :
  scan_code Examples.parse Examples.src_popen "app.py"
  = [mkFinding "app.py" 1 "Potential Subprocess Injection: subprocess.Popen"
       "High" "subprocess.Popen(cmd)"].
Proof. vm_compute. reflexivity. Qed.

Example scan_empty_handler :
  scan_code Examples.parse Examples.src_empty_handler "app.py"
  = [mkFinding "app.py" 3 "Broad Exception Handler (empty except)" "Low"
       "except Exception:"].
Proof. vm_compute. reflexivity. Qed.

Example scan_logging_handler :
  scan_code Examples.parse Examples.src_logging_handler "app.py" = [].
Proof. vm_compute. reflexivity. Qed.

Example scan_ordering :
  map (fun f => (line f, severity f))
    (scan_code Examples.parse Examples.src_ordering "app.py")
  = [(2, "High"); (5, "High")].
Proof. vm_compute. reflexivity. Qed.

(** A line number outside the lines gets the placeholder, and line 0 wraps
    to the last line, as [code_lines[-1]] does. *)
Example snippet_out_of_range :
  code_snippet ["a = 1"; "  b = 2  "] 3 = "(Code not available)"
  /\ code_snippet ["a = 1"; "  b = 2  "] 2 = "b = 2"
  /\ code_snippet ["a = 1"; "  b = 2  "] 0 = "b = 2"
  /\ code_snippet [] 0 = "(Code not available)".
Proof. repeat split. Qed.

(** The frames the examples need, as measured on CPython 3.11 by lowering
    [sys.setrecursionlimit] until a visitor of this shape no longer runs. *)
Example frames_of_the_examples :
  map frames
    [Examples.tree_api_key; Examples.tree_token_call; Examples.tree_eval;
     Examples.tree_input; Examples.tree_os_system; Examples.tree_popen;
     Examples.tree_annotated; Examples.tree_chained;
     Examples.tree_empty_handler; Examples.tree_logging_handler;
     Examples.tree_ordering; long_sum_tree 449; long_sum_tree 494;
     long_sum_tree 499]
  = [10; 13; 12; 12; 14; 14; 9; 10; 14; 17; 12; 907; 997; 1007]%nat.
Proof. vm_compute. reflexivity. Qed.

Example stack_room_suffices_for_short_sum :
  scan_code_in 1000 (fun _ => Parsed (long_sum_tree 449)) (long_sum_text 449)
    "app.py"
  = Returned [].
Proof. vm_compute. reflexivity. Qed.

(** ** The claims of the specification *)

(** C1. For the text [api_key = "abc123"], [scan_code] returns exactly one
    Finding, of severity High, whose issue text contains [api_key]; for
    [token = some_function_call()], whose value is a call and not a string
    literal, it returns no Finding at all. *)
Theorem scan_secret_and_safe_assignment
    (ast_parse : string -> parse_outcome) (unit_label : string) :
  ast_parse Examples.src_api_key = Parsed Examples.tree_api_key ->
  ast_parse Examples.src_token_call = Parsed Examples.tree_token_call ->
  scan_code ast_parse Examples.src_api_key unit_label
  = [mkFinding unit_label 1 "Possible Hardcoded Secret: 'api_key'" "High"
       Examples.src_api_key]
  /\ one_finding (scan_code ast_parse Examples.src_api_key unit_label)
       1 "High" "api_key"
  /\ scan_code ast_parse Examples.src_token_call unit_label = [].
Proof.
  intros Hkey Htoken.
  rewrite (scan_code_parsed _ _ _ _ Hkey), (scan_code_parsed _ _ _ _ Htoken).
  split; [reflexivity | split; [|reflexivity]].
  eexists. split; [reflexivity|]. repeat split.
Qed.

Lemma scan_secret_and_safe_assignment_witness :
  scan_code Examples.parse Examples.src_api_key "app.py"
  = [mkFinding "app.py" 1 "Possible Hardcoded Secret: 'api_key'" "High"
       Examples.src_api_key]
  /\ one_finding (scan_code Examples.parse Examples.src_api_key "app.py")
       1 "High" "api_key"
  /\ scan_code Examples.parse Examples.src_token_call "app.py" = [].
Proof.
  apply (scan_secret_and_safe_assignment Examples.parse "app.py");
    reflexivity.
Defined.

(** C2. On every call node: a bare-name call of [eval] (or [exec]) triggers
    exactly one High Finding that names the primitive; a bare-name call of
    [input] exactly one Medium Finding; [os.system] (or [os.popen]) exactly
    one High Finding naming it; [subprocess.run], [subprocess.call] and
    [subprocess.Popen] exactly one High Finding naming the method.  The
    visit of the call then goes on into the callee and the arguments. *)
Theorem dangerous_call_detector
    (self : SecurityVisitor.t) (lineno l l' : Z) (ctx ctx' : expr_context)
    (args keywords : list node) :
  let fn := SecurityVisitor.filename self in
  let lines := SecurityVisitor.code_lines self in
  let found func := emitted fn lines (Call lineno func args keywords) in
  let os_ m := Attribute l (Name l' "os" ctx') m ctx in
  let subprocess_ m := Attribute l (Name l' "subprocess" ctx') m ctx in
  one_finding (found (Name l "eval" ctx)) lineno "High" "eval"
  /\ one_finding (found (Name l "exec" ctx)) lineno "High" "exec"
  /\ one_finding (found (Name l "input" ctx)) lineno "Medium" "input"
  /\ one_finding (found (os_ "system")) lineno "High" "os.system"
  /\ one_finding (found (os_ "popen")) lineno "High" "os.popen"
  /\ one_finding (found (subprocess_ "run")) lineno "High" "subprocess.run"
  /\ one_finding (found (subprocess_ "call")) lineno "High" "subprocess.call"
  /\ one_finding (found (subprocess_ "Popen")) lineno "High" "subprocess.Popen"
  /\ forall func,
       SecurityVisitor.issues
         (SecurityVisitor.visit self (Call lineno func args keywords))
       = SecurityVisitor.issues self ++ found func
         ++ flat_map (emitted fn lines)
              (flat_map preorder (func :: args ++ keywords)).
Proof.
  intros fn lines found os_ subprocess_.
  repeat (split; [eexists; split; [reflexivity | repeat split]|]).
  intros func. rewrite visit_appends, preorder_children. reflexivity.
Qed.

(** C3. An exception handler whose body is exactly one statement, [pass] or
    the expression statement [...], triggers exactly one Low Finding, and its
    body triggers nothing more; a handler with more than one statement
    triggers nothing by itself. *)
Theorem empty_handler_detector
    (self : SecurityVisitor.t) (lineno l l' : Z) (type : option node)
    (name : option string) (s1 s2 : node) (rest : list node) :
  let fn := SecurityVisitor.filename self in
  let lines := SecurityVisitor.code_lines self in
  let low :=
    finding_at fn lines lineno "Broad Exception Handler (empty except)" "Low" in
  let visited body :=
    SecurityVisitor.issues
      (SecurityVisitor.visit self (ExceptHandler lineno type name body)) in
  let in_type := flat_map (emitted fn lines) (flat_map preorder (option_nodes type)) in
  severity low = "Low" /\ line low = lineno
  /\ emitted fn lines (ExceptHandler lineno type name [Pass l]) = [low]
  /\ emitted fn lines
       (ExceptHandler lineno type name [Expr l (Constant l' CEllipsis)])
     = [low]
  /\ visited [Pass l] = SecurityVisitor.issues self ++ low :: in_type
  /\ visited [Expr l (Constant l' CEllipsis)]
     = SecurityVisitor.issues self ++ low :: in_type
  /\ emitted fn lines (ExceptHandler lineno type name (s1 :: s2 :: rest)) = []
  /\ visited (s1 :: s2 :: rest)
     = SecurityVisitor.issues self ++ in_type
       ++ flat_map (emitted fn lines) (flat_map preorder (s1 :: s2 :: rest)).
Proof.
  intros fn lines low visited in_type. subst visited in_type.
  repeat (split; [reflexivity|]).
  cbv beta. rewrite !visit_appends, !preorder_children.
  cbn [iter_child_nodes SecurityVisitor.issues].
  rewrite !flat_map_app.
  change (flat_map preorder [Pass l]) with [Pass l].
  change (flat_map preorder [Expr l (Constant l' CEllipsis)])
    with [Expr l (Constant l' CEllipsis); Constant l' CEllipsis].
  cbn [flat_map]. rewrite !flat_map_app.
  repeat split; cbn [app emitted]; rewrite ?app_nil_r; try reflexivity.
Qed.

(** C4. For every text that fails to parse, [scan_code] returns exactly one
    Finding: of severity Error, with the line number the parser reported (0
    when it reported none) and with the parser's message; nothing is
    traversed. *)
Theorem parse_failure_singleton
    (ast_parse : string -> parse_outcome) (source_text unit_label : string) :
  (forall tree, ast_parse source_text <> Parsed tree) ->
  exists f,
    scan_code ast_parse source_text unit_label = [f]
    /\ severity f = "Error"
    /\ filename f = unit_label
    /\ code f = "N/A"
    /\ match ast_parse source_text with
       | RaisedSyntaxError lineno msg =>
           line f = match lineno with Some n => n | None => 0 end
           /\ issue f = ("Syntax Error: " ++ msg)%string
       | RaisedException text =>
           line f = 0 /\ issue f = ("Failed to parse: " ++ text)%string
       | Parsed _ => False
       end.
Proof.
  intros Hfail. unfold scan_code.
  destruct (ast_parse source_text) as [tree | lineno msg | text].
  - exfalso. apply (Hfail tree). reflexivity.
  - eexists. split; [reflexivity|]. simpl. rewrite or_zero_default.
    repeat split.
  - eexists. split; [reflexivity|]. repeat split.
Qed.

Lemma parse_failure_singleton_witness :
  exists f,
    scan_code Examples.parse Examples.src_crlf_def "app.py" = [f]
    /\ severity f = "Error"
    /\ filename f = "app.py"
    /\ code f = "N/A"
    /\ match Examples.parse Examples.src_crlf_def with
       | RaisedSyntaxError lineno msg =>
           line f = match lineno with Some n => n | None => 0 end
           /\ issue f = ("Syntax Error: " ++ msg)%string
       | RaisedException text =>
           line f = 0 /\ issue f = ("Failed to parse: " ++ text)%string
       | Parsed _ => False
       end.
Proof.
  apply (parse_failure_singleton Examples.parse Examples.src_crlf_def "app.py").
  intros tree. vm_compute. discriminate.
Defined.

(** What [scan_code] returns, whenever it returns: after a parser failure
    of either kind one Error Finding, after a successful parse the High,
    Medium and Low Findings of the traversal and no Error Finding. *)
Lemma scan_code_outcomes
    (ast_parse : string -> parse_outcome) (source_text unit_label : string) :
  (exists tree,
      ast_parse source_text = Parsed tree
      /\ Forall (fun f => In (severity f) ["High"; "Medium"; "Low"])
           (scan_code ast_parse source_text unit_label))
  \/ ((forall tree, ast_parse source_text <> Parsed tree)
      /\ exists f,
          scan_code ast_parse source_text unit_label = [f]
          /\ severity f = "Error").
Proof.
  destruct (ast_parse source_text) as [tree | lineno msg | text] eqn:E.
  - left. exists tree. split; [reflexivity|].
    rewrite (scan_code_parsed _ _ _ _ E). apply Forall_forall. intros f Hf.
    apply in_flat_map in Hf as [n [_ Hf]].
    apply emitted_shape in Hf as [ln [text [sev [_ [-> Hsev]]]]]. exact Hsev.
  - right. split; [discriminate|]. unfold scan_code. rewrite E.
    eexists. split; reflexivity.
  - right. split; [discriminate|]. unfold scan_code. rewrite E.
    eexists. split; reflexivity.
Qed.

Lemma frames_sum_of_ones (more : nat) :
  frames (sum_of_ones more) = (2 * more + 4)%nat.
Proof.
  induction more as [|k IH]; [reflexivity|].
  cbn [sum_of_ones frames map list_max fold_right]. rewrite IH. lia.
Qed.

(** C5. [scan_code] does not return on every text: only the call of the
    parser is inside its [try].  On [x = 1+1+...+1] with 500 terms, which
    the parser accepts, the traversal needs more than the 1000 frames of the
    interpreter's default limit, and the [RecursionError] leaves
    [scan_code]; whatever the room on the stack, a sum long enough does
    the same. *)
Theorem long_sum_escapes_scan_code :
  scan_code_in 1000 (fun _ => Parsed (long_sum_tree 499)) (long_sum_text 499)
    "app.py"
  = RaisedRecursionError
  /\ forall (room : nat) (unit_label : string),
       scan_code_in room (fun _ => Parsed (long_sum_tree room))
         (long_sum_text room) unit_label
       = RaisedRecursionError.
Proof.
  split; [vm_compute; reflexivity|].
  intros room unit_label. unfold scan_code_in, long_sum_tree.
  cbn [frames map list_max fold_right]. rewrite frames_sum_of_ones.
  match goal with
  | |- (if (?need <=? room)%nat then _ else _) = _ =>
      destruct (Nat.leb_spec need room) as [H|H]; [lia | reflexivity]
  end.
Qed.




(** C7, as the specification states it, fails: an assignment with more than
    one target is not outside the detector.  The chained assignment of one
    string literal to two secret-like names is flagged once per name. *)
Lemma chained_assignment_flagged_twice :
  scan_code Examples.parse Examples.src_chained "app.py"
  = [mkFinding "app.py" 1 "Possible Hardcoded Secret: 'api_key'" "High"
       Examples.src_chained;
     mkFinding "app.py" 1 "Possible Hardcoded Secret: 'secret_token'" "High"
       Examples.src_chained]
  /\ ~ (forall fn lines lineno targets value,
           length targets <> 1%nat ->
           emitted fn lines (Assign lineno targets value) = []).
Proof.
  split; [vm_compute; reflexivity|].
  intros H.
  specialize (H "app.py" [] 1
                [Name 1 "api_key" CtxStore; Name 1 "secret_token" CtxStore]
                (Constant 1 (CStr "abc"))).
  vm_compute in H. specialize (H ltac:(discriminate)). discriminate.
Qed.

(** C7, amended.  The secret detector looks at every target of an
    assignment statement: when the value is a string literal it adds one
    High Finding for each target that is a simple identifier containing, up
    to letter case, one of [key], [password], [secret], [token], in target
    order.  A single such target gives exactly one High Finding, which
    quotes the identifier, and the visit of the statement adds nothing else. *)
Theorem secret_detector_per_target
    (self : SecurityVisitor.t) (lineno l l1 : Z) (s id : string)
    (ctx : expr_context) (targets : list node) :
  let fn := SecurityVisitor.filename self in
  let lines := SecurityVisitor.code_lines self in
  let literal := Constant l (CStr s) in
  emitted fn lines (Assign lineno targets literal)
  = map (secret_finding fn lines lineno) (secret_targets targets)
  /\ (secret_like id ->
      SecurityVisitor.issues
        (SecurityVisitor.visit self (Assign lineno [Name l1 id ctx] literal))
      = SecurityVisitor.issues self ++ [secret_finding fn lines lineno id]
      /\ severity (secret_finding fn lines lineno id) = "High"
      /\ PyStr.contains id (issue (secret_finding fn lines lineno id)) = true).
Proof.
  intros fn lines literal. split.
  - rewrite emitted_Assign. apply target_findings_secret.
  - intros Hid. apply looks_secret_iff in Hid.
    split; [|split; [reflexivity|]].
    + rewrite visit_appends, preorder_children.
      cbn [iter_child_nodes flat_map app preorder].
      rewrite emitted_Assign. cbn [flat_map target_findings].
      rewrite Hid. reflexivity.
    + apply contains_self_between.
Qed.

Lemma secret_detector_per_target_witness :
  let self := SecurityVisitor.__init__ "app.py" ["API_KEY = 'x'"] in
  secret_like "API_KEY"
  /\ SecurityVisitor.issues
       (SecurityVisitor.visit self
          (Assign 1 [Name 1 "API_KEY" CtxStore] (Constant 1 (CStr "x"))))
     = [secret_finding "app.py" ["API_KEY = 'x'"] 1 "API_KEY"].
Proof.
  intros self.
  assert (Hid : secret_like "API_KEY").
  { exists "key", "API_", "KEY", EmptyString.
    split; [simpl; auto | split; reflexivity]. }
  split; [exact Hid|].
  apply (secret_detector_per_target self 1 1 1 "x" "API_KEY" CtxStore []).
  exact Hid.
Defined.

(** C8. The Findings come in document order of the tree, each node's own
    before those of its children, children in field order; so when a secret
    assignment on line 2 comes before a dangerous call on line 5 in the
    tree, its Finding comes before the call's in the returned list. *)
Theorem findings_in_document_order
    (ast_parse : string -> parse_outcome) (source_text unit_label : string)
    (tree a c : node) (before between after : list node) :
  ast_parse source_text = Parsed tree ->
  preorder tree = before ++ a :: between ++ c :: after ->
  is_secret_assignment 2 a ->
  is_dangerous_call 5 c ->
  let found := emitted unit_label (PyStr.splitlines source_text) in
  scan_code ast_parse source_text unit_label = flat_map found (preorder tree)
  /\ exists fa fc,
       found a = [fa] /\ line fa = 2 /\ severity fa = "High"
       /\ found c = [fc] /\ line fc = 5
       /\ scan_code ast_parse source_text unit_label
          = flat_map found before ++ fa :: flat_map found between
            ++ fc :: flat_map found after.
Proof.
  intros Hparse Horder Ha Hc found.
  rewrite (scan_code_parsed _ _ _ _ Hparse). split; [reflexivity|].
  destruct Ha as [l1 [id [ctx [l2 [s [-> Hid]]]]]].
  destruct Hc as [func [args [keywords [-> Hfunc]]]].
  apply looks_secret_iff in Hid.
  destruct (dangerous_call_emits unit_label (PyStr.splitlines source_text)
              5 func args keywords Hfunc) as [text [sev [Hcall _]]].
  exists (secret_finding unit_label (PyStr.splitlines source_text) 2 id),
    (finding_at unit_label (PyStr.splitlines source_text) 5 text sev).
  assert (Hsecret :
            found (Assign 2 [Name l1 id ctx] (Constant l2 (CStr s)))
            = [secret_finding unit_label (PyStr.splitlines source_text) 2 id]).
  { unfold found. rewrite emitted_Assign. cbn [flat_map target_findings].
    rewrite Hid. reflexivity. }
  repeat split; try assumption.
  rewrite Horder, flat_map_app. cbn [flat_map].
  rewrite flat_map_app. cbn [flat_map].
  fold found. rewrite Hsecret. unfold found at 3. rewrite Hcall. reflexivity.
Qed.

Lemma findings_in_document_order_witness :
  let found := emitted "app.py" (PyStr.splitlines Examples.src_ordering) in
  scan_code Examples.parse Examples.src_ordering "app.py"
  = flat_map found (preorder Examples.tree_ordering)
  /\ exists fa fc,
       found (Assign 2 [Name 2 "api_key" CtxStore] (Constant 2 (CStr "abc123")))
       = [fa]
       /\ line fa = 2 /\ severity fa = "High"
       /\ found (Call 5 (Name 5 "eval" CtxLoad) [Name 5 "user_input" CtxLoad] [])
          = [fc]
       /\ line fc = 5
       /\ scan_code Examples.parse Examples.src_ordering "app.py"
          = flat_map found [Module_ (iter_child_nodes Examples.tree_ordering);
                            Other "Import" [Other "alias" []];
                            Other "alias" []]
            ++ fa :: flat_map found
                       [Name 2 "api_key" CtxStore; Constant 2 (CStr "abc123");
                        Expr 5 (Call 5 (Name 5 "eval" CtxLoad)
                                  [Name 5 "user_input" CtxLoad] [])]
            ++ fc :: flat_map found
                       [Name 5 "eval" CtxLoad; Name 5 "user_input" CtxLoad].
Proof.
  apply (findings_in_document_order Examples.parse Examples.src_ordering
           "app.py" Examples.tree_ordering).
  - reflexivity.
  - reflexivity.
  - exists 2, "api_key", CtxStore, 2, "abc123". split; [reflexivity|].
    exists "key", "api_", "key", EmptyString.
    split; [simpl; auto | split; reflexivity].
  - exists (Name 5 "eval" CtxLoad), [Name 5 "user_input" CtxLoad], [].
    split; [reflexivity|]. left. exists 5, "eval", CtxLoad.
    split; [reflexivity | simpl; auto].
Defined.

(** Whenever two invocations on one text and label return, with the parser
    answering the same, they return the same list: each call builds its own
    visitor, with no issue in it. *)
Lemma returned_lists_agree
    (first_parse second_parse : string -> parse_outcome)
    (first_room second_room : nat) (source_text unit_label : string)
    (first second : list Finding) :
  first_parse source_text = second_parse source_text ->
  scan_code_in first_room first_parse source_text unit_label = Returned first ->
  scan_code_in second_room second_parse source_text unit_label
  = Returned second ->
  first = second.
Proof.
  unfold scan_code_in, scan_code. intros Hparse H1 H2. rewrite Hparse in H1.
  destruct (second_parse source_text).
  - destruct (frames tree <=? first_room)%nat; [|discriminate].
    destruct (frames tree <=? second_room)%nat; [|discriminate].
    congruence.
  - congruence.
  - congruence.
Qed.

(** C9. Two invocations of [scan_code] on one text and one label do not
    always come to the same: the traversal is outside the [try], so whether
    the call returns depends on how deep the stack is where it is made.
    The text [x = 1+1+...+1] with 495 terms, parsed the same way both
    times, gives the empty list when [scan_code] is called from the top
    level of a script (room for 998 frames) and a [RecursionError] when the
    call comes from ten frames deeper. *)
Theorem same_text_two_outcomes :
  scan_code_in 998 (fun _ => Parsed (long_sum_tree 494)) (long_sum_text 494)
    "app.py"
  = Returned []
  /\ scan_code_in 988 (fun _ => Parsed (long_sum_tree 494)) (long_sum_text 494)
       "app.py"
     = RaisedRecursionError.
Proof. split; vm_compute; reflexivity. Qed.

Lemma triggers_nothing_emits_nothing (fn : string) (lines : list string)
    (l : list node) :
  triggers_nothing l = true -> flat_map (emitted fn lines) l = [].
Proof.
  unfold triggers_nothing. induction l as [|n l IH]; [reflexivity|].
  cbn [forallb flat_map]. intros H. apply andb_true_iff in H as [Hn Hl].
  rewrite (IH Hl), app_nil_r. destruct n; try reflexivity; discriminate.
Qed.

(** C10, as the specification states it, fails: an annotated assignment of
    a string literal to a secret-like name can produce a Finding.  The
    annotation is an expression, and a call in it is seen by the call
    detector. *)
Lemma annotation_with_call_is_flagged :
  scan_code (fun _ => Parsed annotated_with_call_tree) annotated_with_call_text
    "app.py"
  = [mkFinding "app.py" 1 "Use of Dangerous Function (eval)" "High"
       annotated_with_call_text].
Proof. vm_compute. reflexivity. Qed.

(** C10, amended.  The secret detector never looks at an annotated
    assignment: an [AnnAssign] node adds no Finding of its own, whatever
    its target, its annotation and its value, and wherever it stands in the
    unit; what the visit of the statement adds is what its target, its
    annotation and its value add.  So a string literal assigned to a
    secret-like name under an annotation without calls gives no Finding,
    where the same assignment without the annotation gives one. *)
Theorem annotated_assignment_is_not_inspected
    (self : SecurityVisitor.t) (lineno simple l l' : Z) (id s : string)
    (ctx : expr_context) (target annotation : node) (value : option node) :
  let fn := SecurityVisitor.filename self in
  let lines := SecurityVisitor.code_lines self in
  let found nodes := flat_map (emitted fn lines) nodes in
  let literal := Constant l' (CStr s) in
  emitted fn lines (AnnAssign lineno target annotation value simple) = []
  /\ SecurityVisitor.issues
       (SecurityVisitor.visit self
          (AnnAssign lineno target annotation value simple))
     = SecurityVisitor.issues self ++ found (preorder target)
       ++ found (preorder annotation)
       ++ found (flat_map preorder (option_nodes value))
  /\ (triggers_nothing (preorder annotation) = true ->
      SecurityVisitor.issues
        (SecurityVisitor.visit self
           (AnnAssign lineno (Name l id ctx) annotation (Some literal) simple))
      = SecurityVisitor.issues self)
  /\ (secret_like id ->
      SecurityVisitor.issues
        (SecurityVisitor.visit self (Assign lineno [Name l id ctx] literal))
      = SecurityVisitor.issues self ++ [secret_finding fn lines lineno id])
  /\ (forall (ast_parse : string -> parse_outcome)
             (source_text unit_label : string) (tree : node)
             (before after : list node),
         ast_parse source_text = Parsed tree ->
         preorder tree
         = before ++ AnnAssign lineno target annotation value simple :: after ->
         scan_code ast_parse source_text unit_label
         = flat_map (emitted unit_label (PyStr.splitlines source_text)) before
           ++ flat_map (emitted unit_label (PyStr.splitlines source_text))
                after).
Proof.
  intros fn lines found literal.
  assert (Hvisit : forall t a v,
             SecurityVisitor.issues
               (SecurityVisitor.visit self (AnnAssign lineno t a v simple))
             = SecurityVisitor.issues self ++ found (preorder t)
               ++ found (preorder a) ++ found (flat_map preorder (option_nodes v))).
  { intros t a v. rewrite visit_appends, preorder_children.
    cbn [SecurityVisitor.issues iter_child_nodes flat_map]. unfold found.
    rewrite !flat_map_app. reflexivity. }
  split; [reflexivity|]. split; [apply Hvisit|]. split; [|split].
  - intros Hann. rewrite Hvisit. unfold found.
    rewrite (triggers_nothing_emits_nothing _ _ _ Hann).
    cbn. rewrite app_nil_r. reflexivity.
  - intros Hid. apply looks_secret_iff in Hid.
    rewrite visit_appends, preorder_children.
    cbn [SecurityVisitor.issues iter_child_nodes flat_map app preorder].
    rewrite emitted_Assign. cbn [flat_map target_findings].
    rewrite Hid. reflexivity.
  - intros ast_parse source_text unit_label tree before after Hparse Horder.
    rewrite (scan_code_parsed _ _ _ _ Hparse), Horder, flat_map_app.
    reflexivity.
Qed.

Lemma annotated_assignment_is_not_inspected_witness :
  triggers_nothing
    (preorder (Other "Subscript"
                 [Name 2 "Optional" CtxLoad; Name 2 "str" CtxLoad;
                  Other "Load" []]))
  = true
  /\ SecurityVisitor.issues
       (SecurityVisitor.visit (SecurityVisitor.__init__ "app.py" [])
          (AnnAssign 2 (Name 2 "api_key" CtxStore)
             (Other "Subscript"
                [Name 2 "Optional" CtxLoad; Name 2 "str" CtxLoad;
                 Other "Load" []])
             (Some (Constant 2 (CStr "abc123"))) 1))
     = []
  /\ scan_code (fun _ => Parsed class_attribute_tree) EmptyString "app.py" = [].
Proof.
  pose (annotation := Other "Subscript"
                        [Name 2 "Optional" CtxLoad; Name 2 "str" CtxLoad;
                         Other "Load" []]).
  destruct (annotated_assignment_is_not_inspected
              (SecurityVisitor.__init__ "app.py" []) 2 1 2 2 "api_key" "abc123"
              CtxStore (Name 2 "api_key" CtxStore) annotation
              (Some (Constant 2 (CStr "abc123"))))
    as [_ [_ [Hclean [_ Hunit]]]].
  split; [reflexivity|]. split.
  - apply Hclean. reflexivity.
  - apply (Hunit (fun _ => Parsed class_attribute_tree) EmptyString "app.py"
             class_attribute_tree
             [class_attribute_tree;
              Other "ClassDef" (iter_child_nodes
                                  (Other "ClassDef"
                                     [AnnAssign 2 (Name 2 "api_key" CtxStore)
                                        annotation
                                        (Some (Constant 2 (CStr "abc123"))) 1]))]
             [Name 2 "api_key" CtxStore; annotation; Name 2 "Optional" CtxLoad;
              Name 2 "str" CtxLoad; Other "Load" [];
              Constant 2 (CStr "abc123")]);
      reflexivity.
Defined.

(** * Beyond the claims *)

(** ** The scanner beyond the claims *)

Lemma eqb_in_list (x : string) (l : list string) :
  existsb (String.eqb x) l = true <-> In x l.
Proof.
  rewrite existsb_exists. split.
  - intros [y [Hy Heq]]. apply String.eqb_eq in Heq. subst y. exact Hy.
  - intros H. exists x. split; [exact H | apply String.eqb_refl].
Qed.

(** X1. The call detector fires on a call exactly when its callee has one of
    the listed shapes (a bare [eval], [exec] or [input], or [os.system],
    [os.popen], [subprocess.run], [subprocess.call], [subprocess.Popen] on a
    bare module name), and then once: any other callee, an aliased module or
    a longer attribute chain among them, is never flagged. *)
Theorem call_flagged_iff_dangerous
    (fn : string) (lines : list string) (ln : Z) (func : node)
    (args keywords : list node) :
  (emitted fn lines (Call ln func args keywords) <> [] <-> dangerous_callee func)
  /\ (length (emitted fn lines (Call ln func args keywords)) <= 1)%nat.
Proof.
  split.
  - split.
    + intros Hne. unfold emitted, own_issues, SecurityVisitor.visit_Call in Hne.
      destruct func as [ | | | | | | | l v m c | l f c | | ];
        try (exfalso; apply Hne; reflexivity).
      * destruct v as [ | | | | | | | | l' md c' | | ];
          try (exfalso; apply Hne; reflexivity).
        destruct (String.eqb md "os"
                  && existsb (String.eqb m) ["system"; "popen"]) eqn:Eos.
        { apply andb_true_iff in Eos as [Hmd Hm].
          apply String.eqb_eq in Hmd. apply eqb_in_list in Hm. subst md.
          right. left. exists l, l', m, c, c'. split; [reflexivity | exact Hm]. }
        destruct (String.eqb md "subprocess"
                  && existsb (String.eqb m) ["run"; "call"; "Popen"]) eqn:Esp.
        { apply andb_true_iff in Esp as [Hmd Hm].
          apply String.eqb_eq in Hmd. apply eqb_in_list in Hm. subst md.
          right. right. exists l, l', m, c, c'.
          split; [reflexivity | exact Hm]. }
        exfalso. apply Hne. reflexivity.
      * destruct (existsb (String.eqb f) ["eval"; "exec"]) eqn:Eev.
        { apply eqb_in_list in Eev. left. exists l, f, c.
          split; [reflexivity|].
          destruct Eev as [<- | [<- | []]]; [left | right; left]; reflexivity. }
        destruct (String.eqb f "input") eqn:Ein.
        { apply String.eqb_eq in Ein. left. exists l, f, c.
          split; [reflexivity|]. subst f. right; right; left; reflexivity. }
        exfalso. apply Hne. reflexivity.
    + intros Hd.
      destruct (dangerous_call_emits fn lines ln func args keywords Hd)
        as [text [sev [-> _]]]. discriminate.
  - unfold emitted, own_issues, SecurityVisitor.visit_Call.
    break_match_goal ltac:(simpl; lia); simpl; lia.
Qed.

Lemma call_flagged_iff_dangerous_witness :
  emitted "app.py" []
    (Call 1 (Attribute 1 (Name 1 "os" CtxLoad) "popen" CtxLoad) [] [])
  <> []
  /\ ~ dangerous_callee
         (Attribute 1 (Attribute 1 (Name 1 "a" CtxLoad) "os" CtxLoad) "system"
            CtxLoad).
Proof.
  split.
  - apply (call_flagged_iff_dangerous "app.py" [] 1
             (Attribute 1 (Name 1 "os" CtxLoad) "popen" CtxLoad) [] []).
    right. left. exists 1, 1, "popen", CtxLoad, CtxLoad.
    split; [reflexivity | simpl; auto].
  - intros Hd.
    apply (call_flagged_iff_dangerous "app.py" [] 1
             (Attribute 1 (Attribute 1 (Name 1 "a" CtxLoad) "os" CtxLoad)
                "system" CtxLoad) [] []) in Hd.
    apply Hd. reflexivity.
Defined.

Lemma target_findings_nonempty (fn : string) (lines : list string) (ln : Z)
    (value target : node) :
  target_findings fn lines ln value target <> []
  <-> (exists l s, value = Constant l (CStr s))
      /\ exists l id ctx, target = Name l id ctx /\ looks_secret id = true.
Proof.
  split.
  - intros H. unfold target_findings in H.
    destruct target as [ | | | | | | | | l id ctx | | ];
      try (exfalso; apply H; reflexivity).
    destruct (looks_secret id) eqn:E; [|exfalso; apply H; reflexivity].
    destruct value as [ | | | | | | | | | l' v | ];
      try (exfalso; apply H; reflexivity).
    destruct v; try (exfalso; apply H; reflexivity).
    split; [eexists; eexists; reflexivity|].
    exists l, id, ctx. split; [reflexivity | exact E].
  - intros [[l [s ->]] [l' [id [ctx [-> E]]]]]. simpl. rewrite E. discriminate.
Qed.

Lemma flat_map_nonempty {A B : Type} (f : A -> list B) (l : list A) :
  flat_map f l <> [] <-> exists x, In x l /\ f x <> [].
Proof.
  induction l as [|a l IH]; simpl.
  - split; [intros H; exfalso; apply H; reflexivity | intros [x [[] _]]].
  - split.
    + intros H. destruct (f a) as [|b fa] eqn:E.
      * simpl in H. apply IH in H as [x [Hx Hf]]. exists x. split; [right|]; assumption.
      * exists a. split; [left; reflexivity | rewrite E; discriminate].
    + intros [x [[<- | Hx] Hf]].
      * destruct (f a); [exfalso; apply Hf; reflexivity | discriminate].
      * intros Happ. apply app_eq_nil in Happ as [_ Hl].
        apply IH in Hl; [exact Hl | exists x; split; assumption].
Qed.

Lemma flat_map_length_le {A B : Type} (f : A -> list B) (l : list A) :
  (forall x, length (f x) <= 1)%nat ->
  (length (flat_map f l) <= length l)%nat.
Proof.
  intros Hf. induction l as [|a l IH]; simpl; [lia|].
  rewrite length_app. specialize (Hf a). lia.
Qed.

(** X2. The secret detector fires on an assignment exactly when the value
    is a string literal and some target is a simple identifier holding, up
    to letter case, one of [key], [password], [secret], [token]; it never
    adds more Findings than the statement has targets.  A call, a name, an
    f-string or a bytes literal as the value, and a tuple, attribute or
    subscript as the target, are never flagged. *)
Theorem assignment_flagged_iff_secret
    (fn : string) (lines : list string) (ln : Z) (targets : list node)
    (value : node) :
  (emitted fn lines (Assign ln targets value) <> []
   <-> (exists l s, value = Constant l (CStr s))
       /\ exists l id ctx, In (Name l id ctx) targets /\ secret_like id)
  /\ (length (emitted fn lines (Assign ln targets value)) <= length targets)%nat.
Proof.
  rewrite emitted_Assign. split.
  - rewrite flat_map_nonempty. split.
    + intros [t [Ht Hne]].
      apply target_findings_nonempty in Hne as [Hv [l [id [ctx [-> E]]]]].
      split; [exact Hv|]. exists l, id, ctx.
      split; [exact Ht | apply looks_secret_iff; exact E].
    + intros [Hv [l [id [ctx [Hin Hid]]]]]. exists (Name l id ctx).
      split; [exact Hin|]. apply target_findings_nonempty.
      split; [exact Hv|]. exists l, id, ctx.
      split; [reflexivity | apply looks_secret_iff; exact Hid].
  - apply flat_map_length_le. intros t. unfold target_findings.
    break_match_goal ltac:(simpl; lia); simpl; lia.
Qed.

Lemma assignment_flagged_iff_secret_witness :
  emitted "app.py" []
    (Assign 3 [Other "Tuple" []; Name 3 "DB_PASSWORD" CtxStore]
       (Constant 3 (CStr "hunter2")))
  <> []
  /\ ~ ((exists l s, Constant 3 (CBytes "hunter2") = Constant l (CStr s))
        /\ exists l id ctx,
            In (Name l id ctx) [Name 3 "DB_PASSWORD" CtxStore]
            /\ secret_like id).
Proof.
  split.
  - apply (assignment_flagged_iff_secret "app.py" [] 3
             [Other "Tuple" []; Name 3 "DB_PASSWORD" CtxStore]
             (Constant 3 (CStr "hunter2"))).
    split; [exists 3, "hunter2"; reflexivity|].
    exists 3, "DB_PASSWORD", CtxStore. split; [simpl; auto|].
    exists "password", "DB_", "PASSWORD", EmptyString.
    split; [simpl; auto | split; reflexivity].
  - intros H.
    apply (assignment_flagged_iff_secret "app.py" [] 3
             [Name 3 "DB_PASSWORD" CtxStore] (Constant 3 (CBytes "hunter2")))
      in H.
    apply H. reflexivity.
Defined.

(** X3. The empty-handler detector fires on a handler exactly when its body
    is the single statement [pass] or the single expression statement [...],
    and then once: an empty-looking body such as a lone [continue], a lone
    string or [None] expression, or [pass] twice, is never flagged. *)
Theorem handler_flagged_iff_empty
    (fn : string) (lines : list string) (ln : Z) (type : option node)
    (name : option string) (body : list node) :
  (emitted fn lines (ExceptHandler ln type name body) <> []
   <-> (exists l, body = [Pass l])
       \/ (exists l l', body = [Expr l (Constant l' CEllipsis)]))
  /\ (length (emitted fn lines (ExceptHandler ln type name body)) <= 1)%nat.
Proof.
  split.
  - split.
    + intros Hne.
      unfold emitted, own_issues, SecurityVisitor.visit_ExceptHandler in Hne.
      destruct body as [|st [|st' rest]];
        try (exfalso; apply Hne; reflexivity).
      destruct st as [ | | | l v | l | | | | | | ];
        try (exfalso; apply Hne; reflexivity).
      * destruct v as [ | | | | | | | | | l' c | ];
          try (exfalso; apply Hne; reflexivity).
        destruct c; try (exfalso; apply Hne; reflexivity).
        right. exists l, l'. reflexivity.
      * left. exists l. reflexivity.
    + intros [[l ->] | [l [l' ->]]]; discriminate.
  - unfold emitted, own_issues, SecurityVisitor.visit_ExceptHandler.
    break_match_goal ltac:(simpl; lia); simpl; lia.
Qed.

Lemma handler_flagged_iff_empty_witness :
  emitted "app.py" [] (ExceptHandler 7 None None [Pass 8]) <> []
  /\ ~ ((exists l, [Other "Continue" []] = [Pass l])
        \/ (exists l l',
               [Other "Continue" []] = [Expr l (Constant l' CEllipsis)])).
Proof.
  split.
  - apply (handler_flagged_iff_empty "app.py" [] 7 None None [Pass 8]).
    left. exists 8. reflexivity.
  - intros H.
    apply (handler_flagged_iff_empty "app.py" [] 7 None None
             [Other "Continue" []]) in H.
    apply H. reflexivity.
Defined.

(** X4. Every Finding of a scan comes from a node of the tree: an
    assignment, a call or an exception handler, whose line number is the
    Finding's line; the Finding's filename is the label of the scan, its
    code the snippet of that line, its severity High, Medium or Low. *)
Theorem finding_provenance
    (ast_parse : string -> parse_outcome) (source_text unit_label : string)
    (tree : node) (f : Finding) :
  ast_parse source_text = Parsed tree ->
  In f (scan_code ast_parse source_text unit_label) ->
  exists n,
    In n (preorder tree)
    /\ has_visit_method n = true
    /\ node_lineno n = Some (line f)
    /\ filename f = unit_label
    /\ code f = code_snippet (PyStr.splitlines source_text) (line f)
    /\ In (severity f) ["High"; "Medium"; "Low"].
Proof.
  intros Hparse Hf. rewrite (scan_code_parsed _ _ _ _ Hparse) in Hf.
  apply in_flat_map in Hf as [n [Hn Hf]]. exists n. split; [exact Hn|].
  assert (Hm : has_visit_method n = true).
  { destruct n; try reflexivity; simpl in Hf; contradiction. }
  apply emitted_shape in Hf as [ln [text [sev [Hln [-> Hsev]]]]].
  repeat split; assumption.
Qed.

Lemma finding_provenance_witness :
  exists n,
    In n (preorder Examples.tree_empty_handler)
    /\ has_visit_method n = true
    /\ node_lineno n = Some 3
    /\ "app.py" = "app.py"
    /\ "except Exception:"
       = code_snippet (PyStr.splitlines Examples.src_empty_handler) 3
    /\ In "Low" ["High"; "Medium"; "Low"].
Proof.
  apply (finding_provenance Examples.parse Examples.src_empty_handler "app.py"
           Examples.tree_empty_handler
           (mkFinding "app.py" 3 "Broad Exception Handler (empty except)"
              "Low" "except Exception:")).
  - reflexivity.
  - vm_compute. left. reflexivity.
Defined.



Lemma emitted_relabel (fn fn' : string) (lines : list string) (n : node) :
  emitted fn' lines n = map (relabel fn') (emitted fn lines n).
Proof.
  destruct n; try reflexivity.
  - rewrite !emitted_Assign.
    induction targets as [|t targets IH]; [reflexivity|].
    cbn [flat_map]. rewrite map_app, IH. f_equal.
    unfold target_findings. break_match_goal ltac:(reflexivity); reflexivity.
  - unfold emitted, own_issues, SecurityVisitor.visit_ExceptHandler.
    break_match_goal ltac:(reflexivity); reflexivity.
  - unfold emitted, own_issues, SecurityVisitor.visit_Call.
    break_match_goal ltac:(reflexivity); reflexivity.
Qed.

(** X6. The filename is a label and nothing more: scanning the same text
    under another label gives the same Findings, in the same order, with
    only the filename changed, also for a text that fails to parse. *)
Theorem scan_label_is_only_a_label
    (ast_parse : string -> parse_outcome)
    (source_text unit_label other_label : string) :
  scan_code ast_parse source_text other_label
  = map (relabel other_label) (scan_code ast_parse source_text unit_label)
  /\ Forall (fun f => filename f = unit_label)
       (scan_code ast_parse source_text unit_label).
Proof.
  destruct (ast_parse source_text) as [tree | lineno msg | text] eqn:E.
  - rewrite !(scan_code_parsed _ _ _ _ E). split.
    + induction (preorder tree) as [|n l IH]; [reflexivity|].
      cbn [flat_map]. rewrite map_app, <- IH. f_equal. apply emitted_relabel.
    + apply Forall_forall. intros f Hf. apply in_flat_map in Hf as [n [_ Hf]].
      apply emitted_shape in Hf as [ln [text [sev [_ [-> _]]]]]. reflexivity.
  - unfold scan_code. rewrite E. split; [reflexivity|].
    constructor; [reflexivity | constructor].
  - unfold scan_code. rewrite E. split; [reflexivity|].
    constructor; [reflexivity | constructor].
Qed.

(** X7. [add_issue] always records the line number it is given, in range
    or not.  The code it stores is the stripped line for a line number from
    1 to the number of lines, the placeholder beyond the last line, and,
    through Python's negative indexing, a line counted from the end for a
    line number from 0 down to [1 - len(code_lines)]; below that it is the
    placeholder again. *)
Theorem add_issue_snippet
    (self : SecurityVisitor.t) (line_num : Z) (issue_text severity : string) :
  let lines := SecurityVisitor.code_lines self in
  let len := Z.of_nat (length lines) in
  let added :=
    mkFinding (SecurityVisitor.filename self) line_num issue_text severity
      (code_snippet lines line_num) in
  SecurityVisitor.issues
    (SecurityVisitor.add_issue self line_num issue_text severity)
  = SecurityVisitor.issues self ++ [added]
  /\ (1 <= line_num <= len ->
      exists l, nth_error lines (Z.to_nat (line_num - 1)) = Some l
                /\ code added = PyStr.strip l)
  /\ (len < line_num -> code added = "(Code not available)")
  /\ (1 - len <= line_num <= 0 ->
      exists l, nth_error lines (Z.to_nat (len + line_num - 1)) = Some l
                /\ code added = PyStr.strip l)
  /\ (line_num < 1 - len -> code added = "(Code not available)").
Proof.
  intros lines len added. split; [reflexivity|].
  unfold added, code_snippet, PyList.getitem; cbn [code]. fold len.
  repeat split; intros H.
  - destruct (Z.ltb_spec (line_num - 1) 0); [lia|].
    destruct (Z.ltb_spec (line_num - 1) 0); [lia|].
    destruct (Z.leb_spec len (line_num - 1)); [lia|]. cbn [orb].
    destruct (nth_error lines (Z.to_nat (line_num - 1))) as [l|] eqn:E.
    + exists l. split; reflexivity.
    + apply nth_error_None in E. lia.
  - destruct (Z.ltb_spec (line_num - 1) 0); [lia|].
    destruct (Z.ltb_spec (line_num - 1) 0); [lia|].
    destruct (Z.leb_spec len (line_num - 1)); [reflexivity | lia].
  - destruct (Z.ltb_spec (line_num - 1) 0); [|lia].
    destruct (Z.ltb_spec (line_num - 1 + len) 0); [lia|].
    destruct (Z.leb_spec len (line_num - 1 + len)); [lia|]. cbn [orb].
    replace (line_num - 1 + len) with (len + line_num - 1) by lia.
    destruct (nth_error lines (Z.to_nat (len + line_num - 1))) as [l|] eqn:E.
    + exists l. split; reflexivity.
    + apply nth_error_None in E. lia.
  - destruct (Z.ltb_spec (line_num - 1) 0); [|lia].
    destruct (Z.ltb_spec (line_num - 1 + len) 0); [reflexivity | lia].
Qed.

Lemma add_issue_snippet_witness :
  (exists l, nth_error ["a = 1"; "  b = 2  "] (Z.to_nat (2 - 1)) = Some l
             /\ code_snippet ["a = 1"; "  b = 2  "] 2 = PyStr.strip l)
  /\ code_snippet ["a = 1"; "  b = 2  "] 3 = "(Code not available)"
  /\ (exists l, nth_error ["a = 1"; "  b = 2  "] (Z.to_nat (2 + 0 - 1)) = Some l
                /\ code_snippet ["a = 1"; "  b = 2  "] 0 = PyStr.strip l)
  /\ code_snippet ["a = 1"; "  b = 2  "] (-2) = "(Code not available)".
Proof.
  pose (self := SecurityVisitor.__init__ "app.py" ["a = 1"; "  b = 2  "]).
  split; [|split; [|split]].
  - destruct (add_issue_snippet self 2 "i" "Low") as [_ [H _]].
    apply H. simpl. lia.
  - destruct (add_issue_snippet self 3 "i" "Low") as [_ [_ [H _]]].
    apply H. simpl. lia.
  - destruct (add_issue_snippet self 0 "i" "Low") as [_ [_ [_ [H _]]]].
    apply H. simpl. lia.
  - destruct (add_issue_snippet self (-2) "i" "Low") as [_ [_ [_ [_ H]]]].
    apply H. simpl. lia.
Defined.

(** X8. A visitor only ever appends: visiting a tree leaves the Findings it
    already holds, its filename and its lines of code as they are, and adds
    what a fresh visitor would find; so one visitor run over two trees in
    turn holds the Findings of the first followed by those of the second. *)
Theorem visitor_appends_and_composes (self : SecurityVisitor.t) (a b : node) :
  let fresh :=
    SecurityVisitor.__init__ (SecurityVisitor.filename self)
      (SecurityVisitor.code_lines self) in
  let found n := SecurityVisitor.issues (SecurityVisitor.visit fresh n) in
  SecurityVisitor.issues (SecurityVisitor.visit self a)
  = SecurityVisitor.issues self ++ found a
  /\ SecurityVisitor.filename (SecurityVisitor.visit self a)
     = SecurityVisitor.filename self
  /\ SecurityVisitor.code_lines (SecurityVisitor.visit self a)
     = SecurityVisitor.code_lines self
  /\ SecurityVisitor.issues
       (SecurityVisitor.visit (SecurityVisitor.visit self a) b)
     = SecurityVisitor.issues self ++ found a ++ found b
  /\ found (Module_ [a; b]) = found a ++ found b.
Proof.
  intros fresh found. unfold found, fresh.
  rewrite !visit_appends. cbn [SecurityVisitor.issues SecurityVisitor.filename
    SecurityVisitor.code_lines SecurityVisitor.__init__ app].
  repeat split.
  - rewrite app_assoc. reflexivity.
  - cbn [preorder flat_map]. rewrite app_nil_r, flat_map_app. reflexivity.
Qed.

(** X9. An Error Finding means a parse failure and nothing else: the result
    of a scan holds an Error Finding exactly when the parser failed, and
    then it holds nothing but that one Finding. *)
Theorem error_finding_iff_parse_failure
    (ast_parse : string -> parse_outcome) (source_text unit_label : string) :
  ((exists f, In f (scan_code ast_parse source_text unit_label)
              /\ severity f = "Error")
   <-> forall tree, ast_parse source_text <> Parsed tree)
  /\ ((exists f, In f (scan_code ast_parse source_text unit_label)
                 /\ severity f = "Error") ->
      length (scan_code ast_parse source_text unit_label) = 1%nat).
Proof.
  destruct (ast_parse source_text) as [tree | lineno msg | text] eqn:E.
  - assert (Hno : ~ exists f, In f (scan_code ast_parse source_text unit_label)
                              /\ severity f = "Error").
    { intros [f [Hf Hsev]]. rewrite (scan_code_parsed _ _ _ _ E) in Hf.
      apply in_flat_map in Hf as [n [_ Hf]].
      apply emitted_shape in Hf as [ln [text [sev [_ [-> Hin]]]]].
      cbn in Hsev. subst sev.
      destruct Hin as [H | [H | [H | []]]]; discriminate. }
    split; [split|].
    + intros H. contradiction.
    + intros H. exfalso. apply (H tree). reflexivity.
    + intros H. contradiction.
  - unfold scan_code. rewrite E. split; [split|]; try reflexivity.
    + intros _ tree. discriminate.
    + intros _. eexists. split; [left; reflexivity | reflexivity].
  - unfold scan_code. rewrite E. split; [split|]; try reflexivity.
    + intros _ tree. discriminate.
    + intros _. eexists. split; [left; reflexivity | reflexivity].
Qed.

Lemma error_finding_iff_parse_failure_witness :
  length (scan_code Examples.parse Examples.src_crlf_def "app.py") = 1%nat.
Proof.
  apply (error_finding_iff_parse_failure Examples.parse Examples.src_crlf_def
           "app.py").
  eexists. split; [left; reflexivity | reflexivity].
Defined.

(** ** Lines and snippets *)

Lemma append_empty (s : string) : (s ++ EmptyString)%string = s.
Proof. induction s as [|c s IH]; simpl; [reflexivity | rewrite IH; reflexivity]. Qed.

Lemma append_assoc (a b c : string) :
  ((a ++ b) ++ c)%string = (a ++ b ++ c)%string.
Proof. induction a as [|x a IH]; simpl; [reflexivity | rewrite IH; reflexivity]. Qed.

Lemma lstrip_starts_clean (s : string) : starts_clean (PyStr.lstrip s) = true.
Proof.
  induction s as [|c s IH]; [reflexivity|]. simpl.
  destruct (PyStr.isspace c) eqn:E; [exact IH | simpl; rewrite E; reflexivity].
Qed.

Lemma rstrip_cons (c : ascii) (r : string) :
  PyStr.rstrip (String c r)
  = match PyStr.rstrip r with
    | EmptyString =>
        if PyStr.isspace c then EmptyString else String c EmptyString
    | String c' r' => String c (String c' r')
    end.
Proof. simpl. destruct (PyStr.rstrip r); reflexivity. Qed.

Lemma rstrip_ends_clean (s : string) : ends_clean (PyStr.rstrip s) = true.
Proof.
  induction s as [|c s IH]; [reflexivity|]. rewrite rstrip_cons.
  destruct (PyStr.rstrip s) as [|c' r'].
  - destruct (PyStr.isspace c) eqn:E; [reflexivity | simpl; rewrite E; reflexivity].
  - exact IH.
Qed.

Lemma rstrip_starts_clean (s : string) :
  starts_clean s = true -> starts_clean (PyStr.rstrip s) = true.
Proof.
  destruct s as [|c r]; [reflexivity|]. intros H. rewrite rstrip_cons.
  destruct (PyStr.rstrip r); [|exact H].
  simpl in H. destruct (PyStr.isspace c) eqn:E; [discriminate|].
  simpl. rewrite E. reflexivity.
Qed.

Lemma lstrip_no_linebreak (s : string) :
  no_linebreak s = true -> no_linebreak (PyStr.lstrip s) = true.
Proof.
  induction s as [|c s IH]; [reflexivity|]. intros H. simpl.
  destruct (PyStr.isspace c); [|exact H].
  simpl in H. apply andb_true_iff in H as [_ H]. exact (IH H).
Qed.

Lemma rstrip_no_linebreak (s : string) :
  no_linebreak s = true -> no_linebreak (PyStr.rstrip s) = true.
Proof.
  induction s as [|c s IH]; [reflexivity|]. intros H. rewrite rstrip_cons.
  simpl in H. apply andb_true_iff in H as [Hc Hs]. specialize (IH Hs).
  destruct (PyStr.rstrip s) as [|c' r'].
  - destruct (PyStr.isspace c); [reflexivity | simpl; rewrite Hc; reflexivity].
  - change (negb (PyStr.is_linebreak c) && no_linebreak (String c' r') = true).
    rewrite Hc, IH. reflexivity.
Qed.

Lemma strip_trimmed (s : string) :
  no_linebreak s = true -> trimmed_line (PyStr.strip s) = true.
Proof.
  intros H. unfold trimmed_line, PyStr.strip.
  rewrite rstrip_starts_clean by apply lstrip_starts_clean.
  rewrite rstrip_ends_clean.
  rewrite rstrip_no_linebreak by (apply lstrip_no_linebreak; exact H).
  reflexivity.
Qed.

Lemma no_linebreak_app (a b : string) :
  no_linebreak (a ++ b) = no_linebreak a && no_linebreak b.
Proof.
  induction a as [|c a IH]; [reflexivity|]. simpl.
  rewrite IH, andb_assoc. reflexivity.
Qed.

Lemma splitlines_from_no_linebreak (k : nat) :
  forall s cur,
    (String.length s <= k)%nat ->
    no_linebreak cur = true ->
    Forall (fun l => no_linebreak l = true) (PyStr.splitlines_from cur s).
Proof.
  induction k as [|k IH]; intros s cur Hlen Hcur.
  - destruct s; [|simpl in Hlen; lia]. simpl.
    destruct cur; constructor; [exact Hcur | constructor].
  - destruct s as [|c r]; simpl.
    + destruct cur; constructor; [exact Hcur | constructor].
    + simpl in Hlen. destruct (PyStr.is_linebreak c) eqn:E.
      * constructor; [exact Hcur|].
        destruct r as [|c' r'].
        -- apply IH; [simpl; lia | reflexivity].
        -- destruct (PyStr.is_cr c && PyStr.is_lf c').
           ++ apply IH; [simpl in Hlen; lia | reflexivity].
           ++ apply IH; [lia | reflexivity].
      * apply IH; [lia|]. rewrite no_linebreak_app, Hcur. simpl.
        rewrite E. reflexivity.
Qed.

Lemma splitlines_no_linebreak (s l : string) :
  In l (PyStr.splitlines s) -> no_linebreak l = true.
Proof.
  intros H.
  pose proof (splitlines_from_no_linebreak (String.length s) s EmptyString
                (le_n _) eq_refl) as HF.
  rewrite Forall_forall in HF. apply HF. exact H.
Qed.

Lemma getitem_In {A : Type} (l : list A) (i : Z) (x : A) :
  PyList.getitem l i = Some x -> In x l.
Proof.
  unfold PyList.getitem. destruct (_ || _); [discriminate|].
  apply nth_error_In.
Qed.

(** X10. The code of every Finding a scan returns is a single line with no
    white space around it: a line of the text, stripped, or one of the two
    placeholders; it never holds a line end. *)
Theorem finding_code_is_a_trimmed_line
    (ast_parse : string -> parse_outcome) (source_text unit_label : string)
    (f : Finding) :
  In f (scan_code ast_parse source_text unit_label) ->
  trimmed_line (code f) = true
  /\ (code f = "N/A" \/ code f = "(Code not available)"
      \/ exists l, In l (PyStr.splitlines source_text)
                   /\ code f = PyStr.strip l).
Proof.
  intros Hf.
  destruct (ast_parse source_text) as [tree | lineno msg | text] eqn:E.
  - rewrite (scan_code_parsed _ _ _ _ E) in Hf.
    apply in_flat_map in Hf as [n [_ Hf]].
    apply emitted_shape in Hf as [ln [text [sev [_ [-> _]]]]].
    cbn [code finding_at]. unfold code_snippet.
    destruct (PyList.getitem (PyStr.splitlines source_text) (ln - 1))
      as [l|] eqn:G.
    + apply getitem_In in G. split.
      * apply strip_trimmed. apply (splitlines_no_linebreak source_text l G).
      * right; right. exists l. split; [exact G | reflexivity].
    + split; [reflexivity | right; left; reflexivity].
  - unfold scan_code in Hf. rewrite E in Hf. destruct Hf as [<- | []].
    split; [reflexivity | left; reflexivity].
  - unfold scan_code in Hf. rewrite E in Hf. destruct Hf as [<- | []].
    split; [reflexivity | left; reflexivity].
Qed.

Lemma finding_code_is_a_trimmed_line_witness :
  trimmed_line "except Exception:" = true
  /\ ("except Exception:" = "N/A"
      \/ "except Exception:" = "(Code not available)"
      \/ exists l, In l (PyStr.splitlines Examples.src_empty_handler)
                   /\ "except Exception:" = PyStr.strip l).
Proof.
  apply (finding_code_is_a_trimmed_line Examples.parse
           Examples.src_empty_handler "app.py"
           (mkFinding "app.py" 3 "Broad Exception Handler (empty except)"
              "Low" "except Exception:")).
  vm_compute. left. reflexivity.
Defined.

Lemma splitlines_from_plain (l cur : string) :
  no_linebreak l = true ->
  PyStr.splitlines_from cur l
  = match (cur ++ l)%string with
    | EmptyString => []
    | s => [s]
    end.
Proof.
  revert cur. induction l as [|c l IH]; intros cur H.
  - simpl. rewrite append_empty. destruct cur; reflexivity.
  - simpl in H. apply andb_true_iff in H as [Hc Hl].
    apply negb_true_iff in Hc. simpl. rewrite Hc, (IH _ Hl).
    rewrite append_assoc. reflexivity.
Qed.

Lemma splitlines_from_line (eol l cur rest : string) :
  eol = PyStr.LF \/ eol = (PyStr.CR ++ PyStr.LF)%string ->
  no_linebreak l = true ->
  PyStr.splitlines_from cur (l ++ eol ++ rest)
  = (cur ++ l)%string :: PyStr.splitlines_from EmptyString rest.
Proof.
  intros Heol. revert cur. induction l as [|c l IH]; intros cur H.
  - rewrite append_empty.
    destruct Heol as [-> | ->]; [destruct rest|]; reflexivity.
  - simpl in H. apply andb_true_iff in H as [Hc Hl].
    apply negb_true_iff in Hc.
    change (String c l ++ eol ++ rest)%string
      with (String c (l ++ eol ++ rest)%string).
    cbn [PyStr.splitlines_from]. rewrite Hc, (IH _ Hl), append_assoc.
    reflexivity.
Qed.

(** X11. [splitlines] gives back the lines a text was made of: for lines
    that hold no line boundary, each followed by LF or each by CR LF, the
    split of the text is the list of the lines, and a last line without a
    line end is kept when it is not empty.  The scanner's line numbers so
    point at the same lines under both line ends. *)
Theorem splitlines_unlines (eol : string) (lines : list string) (last : string) :
  eol = PyStr.LF \/ eol = (PyStr.CR ++ PyStr.LF)%string ->
  Forall (fun l => no_linebreak l = true) lines ->
  no_linebreak last = true ->
  PyStr.splitlines (unlines eol lines) = lines
  /\ PyStr.splitlines (unlines eol lines ++ last)
     = lines ++ match last with
                | EmptyString => []
                | _ => [last]
                end.
Proof.
  intros Heol Hlines Hlast. unfold PyStr.splitlines.
  induction Hlines as [|l lines Hl _ IH].
  - split; [reflexivity|]. simpl.
    rewrite (splitlines_from_plain last EmptyString Hlast).
    destruct last; reflexivity.
  - destruct IH as [IH1 IH2]. cbn [unlines]. split.
    + rewrite (splitlines_from_line eol l _ _ Heol Hl), IH1. reflexivity.
    + rewrite !append_assoc.
      rewrite (splitlines_from_line eol l _ _ Heol Hl), IH2. reflexivity.
Qed.

Lemma splitlines_unlines_witness :
  PyStr.splitlines
    (unlines (PyStr.CR ++ PyStr.LF) ["import os"; EmptyString; "  x = 1"])
  = ["import os"; EmptyString; "  x = 1"]
  /\ PyStr.splitlines
       (unlines (PyStr.CR ++ PyStr.LF) ["import os"; EmptyString; "  x = 1"]
        ++ "y = 2")
     = ["import os"; EmptyString; "  x = 1"] ++ ["y = 2"].
Proof.
  apply (splitlines_unlines (PyStr.CR ++ PyStr.LF)
           ["import os"; EmptyString; "  x = 1"] "y = 2").
  - right. reflexivity.
  - repeat constructor.
  - reflexivity.
Defined.

(** ** main.py: the upload endpoint *)

Lemma scan_code_filenames
    (ast_parse : string -> parse_outcome) (source_text unit_label : string) :
  Forall (fun f => filename f = unit_label)
    (scan_code ast_parse source_text unit_label).
Proof.
  apply Forall_forall. intros f Hf.
  destruct (ast_parse source_text) as [tree | lineno msg | text] eqn:E.
  - rewrite (scan_code_parsed _ _ _ _ E) in Hf.
    apply in_flat_map in Hf as [n [_ Hf]].
    apply emitted_shape in Hf as [ln [text [sev [_ [-> _]]]]]. reflexivity.
  - unfold scan_code in Hf. rewrite E in Hf.
    destruct Hf as [<- | []]. reflexivity.
  - unfold scan_code in Hf. rewrite E in Hf.
    destruct Hf as [<- | []]. reflexivity.
Qed.

Section MainProperties.

Variable ast_parse : string -> parse_outcome.
Variable room : nat.
Variable decode_utf8 : string -> option string.
Variable environ_get : string -> option string.
Variable score_from_github : string -> list (string * string) -> TrustData.
Variable clone_from : string -> string -> option string.
Variable os_walk : string -> list walk_entry.
Variable read_text : string -> option string.
Variable path_join : string -> string -> string.
Variable relpath : string -> string -> option string.

(** X12. What [analyze_file] answers, case by case.  An upload of more
    than 1048576 bytes is refused with status 413, before anything is
    decoded.  Otherwise bytes that are not UTF-8 give one Error Finding at
    line 0 with an empty code; a decoded text whose tree needs more frames
    than the stack has room for makes the endpoint itself raise
    [RecursionError]; and any other decoded text gives the Findings of
    [scan_code] under the upload's name.  Whenever Findings are answered
    they all carry the upload's name, and they are one Error Finding or
    High, Medium and Low Findings only. *)
Theorem analyze_file_response (file : UploadFile) :
  let size := Z.of_nat (String.length (upload_content file)) in
  let decoded := decode_utf8 (upload_content file) in
  let response := analyze_file ast_parse room decode_utf8 file in
  (1048576 < size ->
   response = FileHTTPException 413 "File too large. Max size is 1MB.")
  /\ (size <= 1048576 ->
      decoded = None ->
      response
      = FileIssues [mkFinding (upload_filename file) 0 "File is not valid text"
                      "Error" EmptyString])
  /\ (forall text tree,
         size <= 1048576 ->
         decoded = Some text ->
         ast_parse text = Parsed tree ->
         (room < frames tree)%nat ->
         response = FileRaisedRecursionError)
  /\ (forall text,
         size <= 1048576 ->
         decoded = Some text ->
         (forall tree, ast_parse text = Parsed tree -> (frames tree <= room)%nat) ->
         response = FileIssues (scan_code ast_parse text (upload_filename file)))
  /\ (forall issues,
         response = FileIssues issues ->
         Forall (fun f => filename f = upload_filename file) issues
         /\ ((exists f, issues = [f] /\ severity f = "Error")
             \/ Forall (fun f => In (severity f) ["High"; "Medium"; "Low"])
                  issues)).
Proof.
  intros size decoded response. subst response. unfold analyze_file.
  fold size. fold decoded. change MAX_FILE_SIZE with 1048576.
  destruct (Z.ltb_spec 1048576 size) as [Hbig | Hok].
  { split; [reflexivity|]. do 3 (split; [intros; lia|]).
    intros issues H. discriminate H. }
  split; [intros; lia|].
  destruct decoded as [text|] eqn:Hdec.
  - split; [intros _ H; discriminate H|]. unfold scan_code_in.
    destruct (ast_parse text) as [tree | lineno msg | e] eqn:E.
    + destruct (Nat.leb_spec (frames tree) room) as [Hfit | Hdeep].
      * split; [|split].
        -- intros text' tree' _ Ht Hp Hd. injection Ht as <-.
           rewrite E in Hp. injection Hp as <-. lia.
        -- intros text' _ Ht _. injection Ht as <-. reflexivity.
        -- intros issues H. injection H as <-.
           split; [apply scan_code_filenames|]. right.
           destruct (scan_code_outcomes ast_parse text (upload_filename file))
             as [[tree' [_ Hsev]] | [Hfail _]]; [exact Hsev|].
           exfalso. apply (Hfail tree). exact E.
      * split; [|split].
        -- intros; reflexivity.
        -- intros text' _ Ht Hall. injection Ht as <-.
           specialize (Hall tree E). lia.
        -- intros issues H. discriminate H.
    + split; [|split].
      * intros text' tree' _ Ht Hp. injection Ht as <-.
        rewrite E in Hp. discriminate Hp.
      * intros text' _ Ht _. injection Ht as <-. reflexivity.
      * intros issues H. injection H as <-.
        split; [apply scan_code_filenames|]. left.
        unfold scan_code. rewrite E. eexists. split; reflexivity.
    + split; [|split].
      * intros text' tree' _ Ht Hp. injection Ht as <-.
        rewrite E in Hp. discriminate Hp.
      * intros text' _ Ht _. injection Ht as <-. reflexivity.
      * intros issues H. injection H as <-.
        split; [apply scan_code_filenames|]. left.
        unfold scan_code. rewrite E. eexists. split; reflexivity.
  - split; [intros _ _; reflexivity|]. split; [|split].
    + intros text tree _ H. discriminate H.
    + intros text _ H. discriminate H.
    + intros issues H. injection H as <-. split.
      * constructor; [reflexivity | constructor].
      * left. eexists. split; reflexivity.
Qed.

(** ** main.py: the walk over a cloned repository *)

Lemma fold_left_extend {A B : Type} (step : list B -> A -> list B)
    (g : A -> list B) :
  (forall acc x, step acc x = acc ++ g x) ->
  forall l acc, fold_left step l acc = acc ++ flat_map g l.
Proof.
  intros Hstep. induction l as [|x l IH]; intros acc; simpl.
  - rewrite app_nil_r. reflexivity.
  - rewrite IH, Hstep, <- app_assoc. reflexivity.
Qed.

Let found := file_findings ast_parse room read_text path_join relpath.
Let walked := scan_walk ast_parse room read_text path_join relpath.

Lemma scan_walk_files (repo_path root : string) (files : list string)
    (acc : list Finding) :
  fold_left
    (fun scan_results file =>
       if PyPath.endswith file ".py" then
         let full_path := path_join root file in
         match read_text full_path with
         | Some content =>
             match relpath full_path repo_path with
             | Some relative_filename =>
                 match scan_code_in room ast_parse content relative_filename with
                 | Returned issues => scan_results ++ issues
                 | RaisedRecursionError => scan_results
                 end
             | None => scan_results
             end
         | None => scan_results
         end
       else scan_results)
    files acc
  = acc ++ flat_map (found repo_path root) files.
Proof.
  apply fold_left_extend. intros acc' file.
  unfold found, file_findings, scan_walk. cbn [fold_left].
  destruct (PyPath.endswith file ".py"); [|rewrite app_nil_r; reflexivity].
  cbv zeta.
  destruct (read_text (path_join root file)); [|rewrite app_nil_r; reflexivity].
  destruct (relpath (path_join root file) repo_path);
    [|rewrite app_nil_r; reflexivity].
  destruct (scan_code_in room ast_parse s s0);
    [reflexivity | rewrite app_nil_r; reflexivity].
Qed.

Lemma scan_walk_flat_map (repo_path : string) (walk : list walk_entry) :
  walked repo_path walk
  = flat_map
      (fun entry : walk_entry =>
         flat_map (found repo_path (fst (fst entry))) (snd entry))
      walk.
Proof.
  unfold walked, scan_walk.
  rewrite (fold_left_extend _
             (fun entry : walk_entry =>
                flat_map (found repo_path (fst (fst entry))) (snd entry))).
  - reflexivity.
  - intros acc [[root dirs] files]. apply scan_walk_files.
Qed.

Lemma found_cases (repo_path root file : string) :
  found repo_path root file
  = if PyPath.endswith file ".py" then
      match read_text (path_join root file) with
      | Some content =>
          match relpath (path_join root file) repo_path with
          | Some relative_filename =>
              match scan_code_in room ast_parse content relative_filename with
              | Returned issues => issues
              | RaisedRecursionError => []
              end
          | None => []
          end
      | None => []
      end
    else [].
Proof.
  unfold found, file_findings, scan_walk. cbn [fold_left]. cbv zeta.
  destruct (PyPath.endswith file ".py"); [|reflexivity].
  destruct (read_text (path_join root file)); [|reflexivity].
  destruct (relpath (path_join root file) repo_path); [|reflexivity].
  destruct (scan_code_in room ast_parse s s0); reflexivity.
Qed.

(** X13. Only files whose name ends in [.py] are read: the Findings of a
    walk are those of the walk with every other file left out, and the
    sub-directory lists play no part. *)
Theorem walk_reads_python_files_only
    (repo_path : string) (walk : list walk_entry) :
  walked repo_path walk = walked repo_path (map keep_py walk).
Proof.
  rewrite !scan_walk_flat_map.
  induction walk as [|[[root dirs] files] walk IH]; [reflexivity|].
  cbn [map flat_map keep_py fst snd]. rewrite IH. f_equal.
  clear IH. induction files as [|file files IH]; [reflexivity|].
  cbn [flat_map filter]. rewrite IH, found_cases.
  destruct (PyPath.endswith file ".py") eqn:E; [|reflexivity].
  cbn [flat_map]. rewrite found_cases, E. reflexivity.
Qed.

(** X14. The Findings of a walk are the Findings of its files, in the order
    of the walk: the walk of two lists of directories one after the other
    gives the Findings of the first followed by those of the second, and so
    do two lists of files within one directory. *)
Theorem walk_findings_in_walk_order
    (repo_path root : string) (dirs : list string)
    (walk1 walk2 : list walk_entry) (files1 files2 : list string) :
  walked repo_path (walk1 ++ walk2)
  = walked repo_path walk1 ++ walked repo_path walk2
  /\ walked repo_path [(root, dirs, files1 ++ files2)]
     = walked repo_path [(root, dirs, files1)]
       ++ walked repo_path [(root, dirs, files2)]
  /\ walked repo_path [(root, dirs, files1)]
     = flat_map (fun file => walked repo_path [(root, dirs, [file])]) files1.
Proof.
  split; [|split].
  - rewrite !scan_walk_flat_map. apply flat_map_app.
  - rewrite !scan_walk_flat_map. cbn [flat_map fst snd].
    rewrite !app_nil_r. apply flat_map_app.
  - rewrite scan_walk_flat_map. cbn [flat_map fst snd]. rewrite app_nil_r.
    apply flat_map_ext. intros file. rewrite scan_walk_flat_map.
    cbn [flat_map fst snd]. rewrite !app_nil_r. reflexivity.
Qed.

(** X15. A file that cannot be scanned is passed over in silence and stops
    nothing: when its reading fails, when [relpath] fails, or when its tree
    is too deep for the stack, the Findings of the walk are those of the
    walk without that file. *)
Theorem unscannable_file_is_skipped
    (repo_path root file : string) (dirs files1 files2 : list string)
    (walk1 walk2 : list walk_entry) :
  read_text (path_join root file) = None
  \/ relpath (path_join root file) repo_path = None
  \/ (exists content rel tree,
         read_text (path_join root file) = Some content
         /\ relpath (path_join root file) repo_path = Some rel
         /\ ast_parse content = Parsed tree
         /\ (room < frames tree)%nat) ->
  walked repo_path (walk1 ++ (root, dirs, files1 ++ file :: files2) :: walk2)
  = walked repo_path (walk1 ++ (root, dirs, files1 ++ files2) :: walk2).
Proof.
  intros H.
  assert (Hnone : found repo_path root file = []).
  { rewrite found_cases. destruct (PyPath.endswith file ".py"); [|reflexivity].
    destruct H as [-> | [H | [content [rel [tree [-> [-> [Htree Hdeep]]]]]]]].
    - reflexivity.
    - destruct (read_text (path_join root file)); [rewrite H|]; reflexivity.
    - unfold scan_code_in. rewrite Htree.
      destruct (Nat.leb_spec (frames tree) room); [lia | reflexivity]. }
  rewrite !scan_walk_flat_map, !flat_map_app. cbn [flat_map fst snd].
  rewrite !flat_map_app. cbn [flat_map]. rewrite Hnone. reflexivity.
Qed.

(** X16. Every Finding of a walk belongs to a file of the walk whose name
    ends in [.py] and that could be read: it is a Finding of [scan_code] on
    the text of that file, and its filename is the path of the file relative
    to the clone. *)
Theorem walk_finding_provenance
    (repo_path : string) (walk : list walk_entry) (f : Finding) :
  In f (walked repo_path walk) ->
  exists root dirs files file content rel,
    In (root, dirs, files) walk
    /\ In file files
    /\ PyPath.endswith file ".py" = true
    /\ read_text (path_join root file) = Some content
    /\ relpath (path_join root file) repo_path = Some rel
    /\ In f (scan_code ast_parse content rel)
    /\ filename f = rel.
Proof.
  rewrite scan_walk_flat_map. intros Hf.
  apply in_flat_map in Hf as [[[root dirs] files] [Hentry Hf]].
  cbn [fst snd] in Hf. apply in_flat_map in Hf as [file [Hfile Hf]].
  rewrite found_cases in Hf.
  destruct (PyPath.endswith file ".py") eqn:Epy; [|contradiction].
  destruct (read_text (path_join root file)) as [content|] eqn:Eread;
    [|contradiction].
  destruct (relpath (path_join root file) repo_path) as [rel|] eqn:Erel;
    [|contradiction].
  assert (Hscan : In f (scan_code ast_parse content rel)).
  { unfold scan_code_in in Hf.
    destruct (ast_parse content); [|exact Hf|exact Hf].
    destruct (frames tree <=? room)%nat; [exact Hf | contradiction]. }
  exists root, dirs, files, file, content, rel.
  repeat split; try assumption.
  pose proof (scan_code_filenames ast_parse content rel) as HF.
  rewrite Forall_forall in HF. apply HF. exact Hscan.
Qed.

End MainProperties.

Lemma analyze_file_response_witness :
  analyze_file (fun _ => Parsed (long_sum_tree 499)) 998 World.decode_utf8
    (mkUpload "sum.py" (long_sum_text 499))
  = FileRaisedRecursionError
  /\ analyze_file (fun _ => Parsed (long_sum_tree 494)) 998 World.decode_utf8
       (mkUpload "sum.py" (long_sum_text 494))
     = FileIssues [].
Proof.
  destruct (analyze_file_response (fun _ => Parsed (long_sum_tree 499)) 998
              World.decode_utf8 (mkUpload "sum.py" (long_sum_text 499)))
    as [_ [_ [Hdeep _]]].
  destruct (analyze_file_response (fun _ => Parsed (long_sum_tree 494)) 998
              World.decode_utf8 (mkUpload "sum.py" (long_sum_text 494)))
    as [_ [_ [_ [Hfits _]]]].
  split.
  - apply (Hdeep (long_sum_text 499) (long_sum_tree 499)).
    + vm_compute. discriminate.
    + reflexivity.
    + reflexivity.
    + vm_compute. lia.
  - rewrite (Hfits (long_sum_text 494)).
    + vm_compute. reflexivity.
    + vm_compute. discriminate.
    + reflexivity.
    + intros tree H. injection H as <-. vm_compute. lia.
Defined.

Lemma unscannable_file_is_skipped_witness :
  World.on_walk "./temp_repo_u1"
    ([] ++ ("./temp_repo_u1", ["docs"],
            ["README.md"; "secret.py"] ++ "gone.py" :: ["broken.py"]) :: [])
  = World.on_walk "./temp_repo_u1"
      ([] ++ ("./temp_repo_u1", ["docs"],
              ["README.md"; "secret.py"] ++ ["broken.py"]) :: []).
Proof.
  apply (unscannable_file_is_skipped Examples.parse 1000 World.read_text
           World.path_join World.relpath).
  left. reflexivity.
Defined.

Lemma walk_finding_provenance_witness :
  exists root dirs files file content rel,
    In (root, dirs, files) (World.os_walk "./temp_repo_u1")
    /\ In file files
    /\ PyPath.endswith file ".py" = true
    /\ World.read_text (World.path_join root file) = Some content
    /\ World.relpath (World.path_join root file) "./temp_repo_u1" = Some rel
    /\ In (mkFinding "secret.py" 1 "Possible Hardcoded Secret: 'api_key'"
             "High" Examples.src_api_key)
          (scan_code Examples.parse content rel)
    /\ "secret.py" = rel.
Proof.
  apply (walk_finding_provenance Examples.parse 1000 World.read_text
           World.path_join World.relpath "./temp_repo_u1"
           (World.os_walk "./temp_repo_u1")
           (mkFinding "secret.py" 1 "Possible Hardcoded Secret: 'api_key'"
              "High" Examples.src_api_key)).
  vm_compute. left. reflexivity.
Defined.

(** ** main.py: the repository URL *)

Lemma has_char_app (ch : ascii) (a b : string) :
  has_char ch (a ++ b) = has_char ch a || has_char ch b.
Proof.
  induction a as [|c a IH]; [reflexivity|]. simpl.
  rewrite IH, orb_assoc. reflexivity.
Qed.

Lemma split_from_nonempty (sep : ascii) (s cur : string) :
  PyPath.split_from sep cur s <> [].
Proof.
  revert cur. induction s as [|c s IH]; intros cur; simpl; [discriminate|].
  destruct (Ascii.eqb c sep); [discriminate | apply IH].
Qed.

Lemma split_from_length (sep : ascii) (s cur : string) :
  (length (PyPath.split_from sep cur s) <? 2)%nat = negb (has_char sep s).
Proof.
  revert cur. induction s as [|c s IH]; intros cur; [reflexivity|]. simpl.
  destruct (Ascii.eqb c sep); [|apply IH]. simpl.
  pose proof (split_from_nonempty sep s EmptyString) as Hne.
  destruct (PyPath.split_from sep EmptyString s); [contradiction | reflexivity].
Qed.

Lemma split_from_app_sep (sep : ascii) (a b cur : string) :
  PyPath.split_from sep cur (a ++ String sep b)
  = PyPath.split_from sep cur a ++ PyPath.split sep b.
Proof.
  revert cur. induction a as [|c a IH]; intros cur; simpl.
  - rewrite Ascii.eqb_refl. reflexivity.
  - destruct (Ascii.eqb c sep); [rewrite IH; reflexivity | apply IH].
Qed.

Lemma split_from_plain (sep : ascii) (s cur : string) :
  has_char sep s = false ->
  PyPath.split_from sep cur s = [(cur ++ s)%string].
Proof.
  revert cur. induction s as [|c s IH]; intros cur H; simpl.
  - rewrite append_empty. reflexivity.
  - simpl in H. apply orb_false_iff in H as [Hc Hs].
    rewrite Hc, (IH _ Hs), append_assoc. reflexivity.
Qed.

Lemma rstrip_char_cons (ch c : ascii) (r : string) :
  PyPath.rstrip_char ch (String c r)
  = match PyPath.rstrip_char ch r with
    | EmptyString => if Ascii.eqb c ch then EmptyString else String c EmptyString
    | String c' r' => String c (String c' r')
    end.
Proof. simpl. destruct (PyPath.rstrip_char ch r); reflexivity. Qed.

Lemma rstrip_char_only (ch : ascii) (s : string) :
  only_char ch s = true -> PyPath.rstrip_char ch s = EmptyString.
Proof.
  induction s as [|c s IH]; [reflexivity|]. intros H. simpl in H.
  apply andb_true_iff in H as [Hc Hs]. rewrite rstrip_char_cons, (IH Hs), Hc.
  reflexivity.
Qed.

Lemma rstrip_char_keeps (ch : ascii) (t tail : string) :
  has_char ch t = false -> only_char ch tail = true ->
  PyPath.rstrip_char ch (t ++ tail) = t.
Proof.
  intros Ht Htail. induction t as [|c t IH]; simpl.
  - apply rstrip_char_only. exact Htail.
  - simpl in Ht. apply orb_false_iff in Ht as [Hc Ht].
    change (PyPath.rstrip_char ch (String c (t ++ tail)) = String c t).
    rewrite rstrip_char_cons, (IH Ht), Hc. destruct t; reflexivity.
Qed.

Lemma rstrip_char_app (ch : ascii) (a t : string) :
  PyPath.rstrip_char ch t <> EmptyString ->
  PyPath.rstrip_char ch (a ++ t) = (a ++ PyPath.rstrip_char ch t)%string.
Proof.
  intros Hne. induction a as [|c a IH]; [reflexivity|].
  change (PyPath.rstrip_char ch (String c (a ++ t))
          = String c (a ++ PyPath.rstrip_char ch t)%string).
  rewrite rstrip_char_cons, IH.
  destruct (a ++ PyPath.rstrip_char ch t)%string eqn:E; [|reflexivity].
  exfalso. destruct a; simpl in E; [contradiction | discriminate].
Qed.

Lemma getitem_last_two {A : Type} (l : list A) (a b : A) :
  PyList.getitem (l ++ [a; b]) (-2) = Some a
  /\ PyList.getitem (l ++ [a; b]) (-1) = Some b.
Proof.
  unfold PyList.getitem. rewrite length_app. cbn [length].
  replace (Z.of_nat (length l + 2)) with (Z.of_nat (length l) + 2) by lia.
  cbn [Z.ltb Z.compare]. split.
  - destruct (Z.ltb_spec (-2 + (Z.of_nat (length l) + 2)) 0); [lia|].
    destruct (Z.leb_spec (Z.of_nat (length l) + 2)
                (-2 + (Z.of_nat (length l) + 2))); [lia|]. cbn [orb].
    replace (Z.to_nat (-2 + (Z.of_nat (length l) + 2))) with (length l + 0)%nat
      by lia.
    rewrite nth_error_app2 by lia.
    replace (length l + 0 - length l)%nat with 0%nat by lia. reflexivity.
  - destruct (Z.ltb_spec (-1 + (Z.of_nat (length l) + 2)) 0); [lia|].
    destruct (Z.leb_spec (Z.of_nat (length l) + 2)
                (-1 + (Z.of_nat (length l) + 2))); [lia|]. cbn [orb].
    replace (Z.to_nat (-1 + (Z.of_nat (length l) + 2))) with (length l + 1)%nat
      by lia.
    rewrite nth_error_app2 by lia.
    replace (length l + 1 - length l)%nat with 1%nat by lia. reflexivity.
Qed.

Lemma github_url_has_slash (repo_url : string) :
  PyPath.startswith repo_url "https://github.com/" = true ->
  has_char PyPath.slash (PyPath.rstrip_char PyPath.slash repo_url) = true.
Proof.
  unfold PyPath.startswith. intros H. apply prefix_app in H as [rest ->].
  change ("https://github.com/" ++ rest)%string
    with ("https://github.co" ++ String "m" (String PyPath.slash rest))%string.
  rewrite rstrip_char_app.
  - rewrite has_char_app. reflexivity.
  - rewrite rstrip_char_cons.
    destruct (PyPath.rstrip_char PyPath.slash (String PyPath.slash rest));
      discriminate.
Qed.

Section TrustProperties.

Variable ast_parse : string -> parse_outcome.
Variable room : nat.
Variable environ_get : string -> option string.
Variable score_from_github : string -> list (string * string) -> TrustData.
Variable clone_from : string -> string -> option string.
Variable os_walk : string -> list walk_entry.
Variable read_text : string -> option string.
Variable path_join : string -> string -> string.
Variable relpath : string -> string -> option string.

Let trust := calculate_trust_score environ_get score_from_github.

Lemma trust_none (repo_url : string) :
  trust repo_url = None
  <-> has_char PyPath.slash (PyPath.rstrip_char PyPath.slash repo_url) = false.
Proof.
  unfold trust, calculate_trust_score, PyPath.split.
  rewrite split_from_length.
  destruct (has_char PyPath.slash (PyPath.rstrip_char PyPath.slash repo_url));
    cbn [negb].
  - split; [|discriminate]. intros H.
    destruct (PyList.getitem _ (-2)); [destruct (PyList.getitem _ (-1))|];
      discriminate.
  - split; reflexivity.
Qed.

(** X17. What [analyze_repo] answers.  It refuses with status 400 exactly
    the URLs that do not start with [https://github.com/].  For any other
    URL the trust data is that of [calculate_trust_score], which for such a
    URL never takes its [return None]; a clone that raises gives no
    Findings and the text of the exception under [error]; a clone that
    succeeds gives the Findings of the walk over the clone and no [error]. *)
Theorem analyze_repo_response (repo_url unique_id : string) :
  let repo_path := ("./temp_repo_" ++ unique_id)%string in
  match analyze_repo ast_parse room environ_get score_from_github clone_from
          os_walk read_text path_join relpath repo_url unique_id with
  | RepoHTTPException status_code _ =>
      status_code = 400
      /\ PyPath.startswith repo_url "https://github.com/" = false
  | RepoResult issues trust_data error =>
      PyPath.startswith repo_url "https://github.com/" = true
      /\ trust_data = trust repo_url
      /\ trust_data <> None
      /\ error = clone_from repo_url repo_path
      /\ issues
         = match error with
           | Some _ => []
           | None =>
               scan_walk ast_parse room read_text path_join relpath repo_path
                 (os_walk repo_path)
           end
  end.
Proof.
  intros repo_path. unfold analyze_repo. fold repo_path.
  destruct (PyPath.startswith repo_url "https://github.com/") eqn:E;
    cbn [negb]; [|split; reflexivity].
  assert (Hsome : trust repo_url <> None).
  { intros H. apply trust_none in H.
    rewrite (github_url_has_slash repo_url E) in H. discriminate. }
  destruct (clone_from repo_url repo_path); repeat split; assumption.
Qed.

(** X18. [calculate_trust_score] gives up with [None] exactly when the URL,
    its trailing slashes dropped, holds no slash at all: a bare word, the
    empty string, a run of slashes.  Every other string goes on to the
    request, whatever host it names. *)
Theorem trust_score_none_iff_no_slash (repo_url : string) :
  (trust repo_url = None
   <-> has_char PyPath.slash (PyPath.rstrip_char PyPath.slash repo_url) = false)
  /\ (only_char PyPath.slash repo_url = true -> trust repo_url = None)
  /\ (has_char PyPath.slash repo_url = false -> trust repo_url = None).
Proof.
  split; [apply trust_none | split; intros H; apply trust_none].
  - rewrite (rstrip_char_only _ _ H). reflexivity.
  - rewrite <- (append_empty repo_url).
    rewrite (rstrip_char_keeps PyPath.slash repo_url EmptyString H eq_refl).
    exact H.
Qed.

(** X19. The owner and the repository are the last two parts of the URL:
    for a URL [base/owner/repo], with slashes after it or not, where the
    owner holds no slash and the repository is not empty and holds none,
    the request goes to [https://api.github.com/repos/owner/repo], with an
    [Authorization: Bearer] header exactly when [GITHUB_TOKEN] is set and
    not empty. *)
Theorem trust_score_request
    (base owner repo slashes : string) :
  has_char PyPath.slash owner = false ->
  has_char PyPath.slash repo = false ->
  repo <> EmptyString ->
  only_char PyPath.slash slashes = true ->
  let repo_url := (base ++ "/" ++ owner ++ "/" ++ repo ++ slashes)%string in
  let api_url := ("https://api.github.com/repos/" ++ owner ++ "/" ++ repo)%string in
  exists headers,
    trust repo_url = Some (score_from_github api_url headers)
    /\ match environ_get "GITHUB_TOKEN" with
       | None => headers = []
       | Some token =>
           (token = EmptyString /\ headers = [])
           \/ (token <> EmptyString
               /\ headers = [("Authorization", ("Bearer " ++ token)%string)])
       end.
Proof.
  intros Howner Hrepo Hne Hslashes repo_url api_url.
  assert (Hstrip : PyPath.rstrip_char PyPath.slash repo_url
                   = (base ++ "/" ++ owner ++ "/" ++ repo)%string).
  { unfold repo_url.
    rewrite <- (append_assoc base), <- (append_assoc (base ++ "/")),
      <- (append_assoc ((base ++ "/") ++ owner)).
    rewrite rstrip_char_app;
      rewrite (rstrip_char_keeps _ _ _ Hrepo Hslashes);
      [rewrite !append_assoc; reflexivity | exact Hne]. }
  assert (Hparts : PyPath.split PyPath.slash (base ++ "/" ++ owner ++ "/" ++ repo)
                   = PyPath.split PyPath.slash base ++ [owner; repo]).
  { unfold PyPath.split.
    change ("/" ++ owner ++ "/" ++ repo)%string
      with (String PyPath.slash (owner ++ String PyPath.slash repo)).
    rewrite split_from_app_sep. unfold PyPath.split.
    rewrite split_from_app_sep. unfold PyPath.split.
    rewrite (split_from_plain _ _ _ Howner), (split_from_plain _ _ _ Hrepo).
    reflexivity. }
  unfold trust, calculate_trust_score. rewrite Hstrip, Hparts.
  destruct (getitem_last_two (PyPath.split PyPath.slash base) owner repo)
    as [-> ->].
  rewrite length_app. cbn [length].
  destruct (Nat.ltb_spec (length (PyPath.split PyPath.slash base) + 2) 2);
    [lia|].
  eexists. split; [reflexivity|].
  destruct (environ_get "GITHUB_TOKEN") as [[|c token]|].
  - left. split; reflexivity.
  - right. split; [discriminate | reflexivity].
  - reflexivity.
Qed.

End TrustProperties.

Lemma trust_score_none_iff_no_slash_witness :
  calculate_trust_score World.environ_get World.score_from_github "///" = None
  /\ calculate_trust_score World.environ_get World.score_from_github
       "github.com"
     = None.
Proof.
  destruct (trust_score_none_iff_no_slash World.environ_get
              World.score_from_github "///") as [_ [H _]].
  destruct (trust_score_none_iff_no_slash World.environ_get
              World.score_from_github "github.com") as [_ [_ H']].
  split; [apply H | apply H']; reflexivity.
Defined.

Lemma trust_score_request_witness :
  exists headers,
    calculate_trust_score World.environ_get World.score_from_github
      "https://github.com/octo/cat//"
    = Some (World.score_from_github "https://api.github.com/repos/octo/cat"
              headers)
    /\ match World.environ_get "GITHUB_TOKEN" with
       | None => headers = []
       | Some token =>
           (token = EmptyString /\ headers = [])
           \/ (token <> EmptyString
               /\ headers = [("Authorization", ("Bearer " ++ token)%string)])
       end.
Proof.
  apply (trust_score_request World.environ_get World.score_from_github
           "https://github.com" "octo" "cat" "//").
  - reflexivity.
  - reflexivity.
  - discriminate.
  - reflexivity.
Defined.
